(** * worker-sentry: a shallow embedding of [src/index.ts]

    The module under study has two functions: [getErrorStack], which reads
    the V8 call sites of an error through the process-wide
    [Error.prepareStackTrace] hook, and [Sentry.captureException], which
    assembles the event payload, builds one [Request] and hands it to the
    configured [fetch].

    The platform pieces the code calls (the V8 stack-trace API, [URL],
    [JSON.stringify], [Request], promises) are modelled only as far as the
    code observes them; each such model says so in its comment. *)

From Stdlib Require Import ZArith.
From stdpp Require Import base list strings.

Local Open Scope string_scope.
Local Open Scope list_scope.

Set Warnings "-register-all".

(** ** JavaScript values *)

(** Data as it flows through the payload.  Numbers are restricted to
    integers (line and column numbers); objects keep their properties in
    insertion order.  [VBigInt] is a [bigint]; [VCircular] stands, inside an
    object or array, for a reference back to an object that encloses it. *)
Inductive JSValue : Type :=
| VUndefined
| VNull
| VBool (b : bool)
| VNum (z : Z)
| VStr (s : string)
| VBigInt (z : Z)
| VCircular
| VArr (items : list JSValue)
| VObj (props : list (string * JSValue)).

(** The result of evaluating an expression: a value, or a thrown value. *)
Inductive Outcome (A : Type) : Type :=
| Val (a : A)
| Throw (x : JSValue).
Arguments Val {A} a.
Arguments Throw {A} x.

Definition TypeError (msg : string) : JSValue :=
  VObj [("name", VStr "TypeError"); ("message", VStr msg)].

(** ** JSON documents *)

(** The text produced by [JSON.stringify], kept as the tree it parses back
    to.  A key that is absent from a [JObj] is absent from the text;
    [JNull] is the literal [null]. *)
Inductive JSON : Type :=
| JNull
| JBool (b : bool)
| JNum (z : Z)
| JStr (s : string)
| JArr (items : list JSON)
| JObj (members : list (string * JSON)).

(** The first value, in the order [JSON.stringify] visits them, that it
    refuses with a [TypeError]: a [bigint], or an object met again inside
    itself. *)
Fixpoint unserialisable (v : JSValue) : option JSValue :=
  match v with
  | VBigInt _ => Some (TypeError "Do not know how to serialize a BigInt")
  | VCircular => Some (TypeError "Converting circular structure to JSON")
  | VArr items =>
      (fix elements (l : list JSValue) : option JSValue :=
         match l with
         | [] => None
         | x :: l' =>
             match unserialisable x with
             | Some e => Some e
             | None => elements l'
             end
         end) items
  | VObj props =>
      (fix members (l : list (string * JSValue)) : option JSValue :=
         match l with
         | [] => None
         | (_, x) :: l' =>
             match unserialisable x with
             | Some e => Some e
             | None => members l'
             end
         end) props
  | _ => None
  end.

(** The text [JSON.stringify] writes for a value it does not refuse
    (ECMAScript SerializeJSONProperty): a property whose value is
    [undefined] is left out of an object, an [undefined] array element is
    written as [null], and [undefined] itself has no serialisation.  The
    two refused kinds of value are never reached, see [JSON_stringify]. *)
Fixpoint SerializeJSONProperty (v : JSValue) : option JSON :=
  match v with
  | VUndefined => None
  | VBigInt _ => None
  | VCircular => None
  | VNull => Some JNull
  | VBool b => Some (JBool b)
  | VNum z => Some (JNum z)
  | VStr s => Some (JStr s)
  | VArr items =>
      Some (JArr ((fix elements (l : list JSValue) : list JSON :=
                     match l with
                     | [] => []
                     | x :: l' =>
                         match SerializeJSONProperty x with
                         | Some j => j :: elements l'
                         | None => JNull :: elements l'
                         end
                     end) items))
  | VObj props =>
      Some (JObj ((fix members (l : list (string * JSValue)) : list (string * JSON) :=
                     match l with
                     | [] => []
                     | (k, x) :: l' =>
                         match SerializeJSONProperty x with
                         | Some j => (k, j) :: members l'
                         | None => members l'
                         end
                     end) props))
  end.

(** [JSON.stringify(v)]: a [TypeError] when the value holds a [bigint] or
    a cycle, the text otherwise ([None] for [undefined]). *)
Definition JSON_stringify (v : JSValue) : Outcome (option JSON) :=
  match unserialisable v with
  | Some e => Throw e
  | None => Val (SerializeJSONProperty v)
  end.

(** The two list traversals of [SerializeJSONProperty], named. *)
Fixpoint SerializeJSONArray (l : list JSValue) : list JSON :=
  match l with
  | [] => []
  | x :: l' =>
      match SerializeJSONProperty x with
      | Some j => j :: SerializeJSONArray l'
      | None => JNull :: SerializeJSONArray l'
      end
  end.

Fixpoint SerializeJSONObject (l : list (string * JSValue)) : list (string * JSON) :=
  match l with
  | [] => []
  | (k, x) :: l' =>
      match SerializeJSONProperty x with
      | Some j => (k, j) :: SerializeJSONObject l'
      | None => SerializeJSONObject l'
      end
  end.

(** Reading a document: member lookup (first binding), array index, and
    the key list in order ([Object.keys]). *)
Fixpoint assoc {A : Type} (k : string) (l : list (string * A)) : option A :=
  match l with
  | [] => None
  | (k', a) :: l' => if String.eqb k' k then Some a else assoc k l'
  end.

Definition member (k : string) (j : JSON) : option JSON :=
  match j with
  | JObj ms => assoc k ms
  | _ => None
  end.

Definition element (i : nat) (j : JSON) : option JSON :=
  match j with
  | JArr items => items !! i
  | _ => None
  end.

Definition keys (j : JSON) : list string :=
  match j with
  | JObj ms => map fst ms
  | _ => []
  end.

(** What a lookup in the serialised object finds, read off the object
    literal: the first binding of the key whose value serialises. *)
Fixpoint literal_member (k : string) (l : list (string * JSValue)) : option JSON :=
  match l with
  | [] => None
  | (k', x) :: l' =>
      if String.eqb k' k then
        match SerializeJSONProperty x with
        | Some j => Some j
        | None => literal_member k l'
        end
      else literal_member k l'
  end.

(** ** The V8 stack-trace API *)

(** The receiver of a call, as far as [String(...)] can tell: primitives
    convert by the language's table, anything else by running its own
    conversion, which returns a string or throws.  V8 gives [undefined]
    for a strict-mode frame and for every frame below one, so below the
    frame of [captureException] (class code, hence strict) only
    [ThisUndefined] occurs; the other cases are what the accessor's type
    [any] allows. *)
Inductive Receiver : Type :=
| ThisUndefined
| ThisNull
| ThisBoolean (b : bool)
| ThisString (s : string)
| ThisObject (conversion : Outcome string).

Definition String_ (r : Receiver) : Outcome string :=
  match r with
  | ThisUndefined => Val "undefined"
  | ThisNull => Val "null"
  | ThisBoolean true => Val "true"
  | ThisBoolean false => Val "false"
  | ThisString s => Val s
  | ThisObject conversion => conversion
  end.

(** What an accessor of a call site returns: a value, [null], or
    [undefined].  The repository's interface types the four accessors below
    as [T | null]; V8 also returns [undefined], e.g. from [getFileName()]
    for a frame of evaluated code. *)
Inductive Accessor (A : Type) : Type :=
| Value (a : A)
| Null
| Undefined.
Arguments Value {A} a.
Arguments Null {A}.
Arguments Undefined {A}.

(** [interface CallSite]: the accessors [captureException] calls, each
    given by its result. *)
Record CallSite : Type := {
  getThis : Receiver;
  getFunctionName : Accessor string;
  getFileName : Accessor string;
  getLineNumber : Accessor Z;
  getColumnNumber : Accessor Z;
  isNative : bool
}.

(** An [Error] instance: [name], [message], the structured trace V8 keeps
    for it, and the [stack] property, which is formatted on first read
    ([None] until then). *)
Record ErrorObj : Type := {
  name : string;
  message : string;
  structuredTrace : list CallSite;
  stack : option JSValue
}.

(** A function stored in [Error.prepareStackTrace]: one installed by the
    host program, or the arrow function [getErrorStack] creates, which
    closes over its [trace] variable and the hook it replaced. *)
Inductive Hook : Type :=
| HostHook (id : nat)
| TraceHook (trace : nat) (prepareStackTrace : option Hook).

(** ** Requests and responses *)

Record Request : Type := {
  url : string;
  method : string;
  headers : list (string * string);
  body : option JSON
}.

Record Response : Type := { status : Z }.

Inductive Promise : Type :=
| Fulfilled (response : Response)
| Rejected (reason : JSValue)
| Pending (id : nat).

(** [type Fetch = (request: Request) => Promise<Response>]; a call may also
    throw synchronously. *)
Definition Fetch : Type := Request -> Outcome Promise.

Module SentryOptions.
(** [interface SentryOptions] *)
Record t : Type := {
  dsn : string;
  fetch : option Fetch
}.
End SentryOptions.

(** The fields of the platform's [URL] class. *)
Record URL : Type := {
  protocol : string;
  username : string;
  password : string;
  host : string;
  pathname : string;
  search : string;
  hash : string
}.

(** ** Capture options *)

Module SentryLevel.
(** [type SentryLevel = "fatal" | "error" | "warning" | "info" | "debug"] *)
Inductive t : Type := fatal | error | warning | info | debug.

Definition to_string (l : t) : string :=
  match l with
  | fatal => "fatal"
  | error => "error"
  | warning => "warning"
  | info => "info"
  | debug => "debug"
  end.
End SentryLevel.

Module UserOptions.
Record t : Type := {
  id : option string;
  username : option string;
  email : option string;
  ip : option string
}.
End UserOptions.

(** [cookies?: string | Record<string, string> | [string, string][]] *)
Inductive Cookies : Type :=
| CookieString (s : string)
| CookieRecord (r : list (string * string))
| CookiePairs (l : list (string * string)).

Module RequestOptions.
Record t : Type := {
  method : option string;
  url : option string;
  headers : option (list (string * string));
  query : option string;
  cookies : option Cookies;
  env : option (list (string * string))
}.
End RequestOptions.

Module Breadcrumb.
(** [timestamp] is a [Date], kept as its epoch milliseconds. *)
Record t : Type := {
  timestamp : option Z;
  type : option string;
  category : option string;
  message : option string;
  data : option (list (string * JSValue));
  level : option SentryLevel.t
}.
End Breadcrumb.

(** [interface CaptureExceptionOptions]: every field optional. *)
Record CaptureExceptionOptions : Type := {
  level : option SentryLevel.t;
  extra : option (list (string * JSValue));
  tags : option (list (string * string));
  release : option string;
  dist : option string;
  environment : option string;
  serverName : option string;
  transaction : option string;
  modules : option (list (string * string));
  user : option UserOptions.t;
  fingerprint : option (list string);
  request : option RequestOptions.t;
  breadcrumbs : option (list Breadcrumb.t)
}.

(** The default parameter value [options = {}]. *)
Definition no_options : CaptureExceptionOptions :=
  {| level := None; extra := None; tags := None; release := None;
     dist := None; environment := None; serverName := None;
     transaction := None; modules := None; user := None;
     fingerprint := None; request := None; breadcrumbs := None |}.

(** Option fields as the JavaScript values a property read gives:
    [undefined] for an unset field. *)
Definition optional {A : Type} (f : A -> JSValue) (o : option A) : JSValue :=
  match o with
  | Some a => f a
  | None => VUndefined
  end.

(** An accessor result as a JavaScript value. *)
Definition accessed {A : Type} (f : A -> JSValue) (a : Accessor A) : JSValue :=
  match a with
  | Value v => f v
  | Null => VNull
  | Undefined => VUndefined
  end.

Definition of_record (r : list (string * string)) : JSValue :=
  VObj (map (fun kv => (fst kv, VStr (snd kv))) r).

Definition of_strings (l : list string) : JSValue := VArr (map VStr l).

Definition of_level (l : SentryLevel.t) : JSValue := VStr (SentryLevel.to_string l).

Definition of_cookies (c : Cookies) : JSValue :=
  match c with
  | CookieString s => VStr s
  | CookieRecord r => of_record r
  | CookiePairs l => VArr (map (fun kv => VArr [VStr (fst kv); VStr (snd kv)]) l)
  end.

(** Optional chaining [options.user?.id]: [undefined] when the object
    itself is unset. *)
Definition chain {A B : Type} (o : option A) (field : A -> option B) : option B :=
  match o with
  | Some a => field a
  | None => None
  end.

(** ** The process state *)

(** What the code reads and writes outside its arguments:
    - [prepareStackTrace]: the global [Error.prepareStackTrace];
    - [variables]: the [trace] variable of each [getErrorStack] activation
      ([None] while unassigned), which outlives the activation when the
      arrow function that closes over it does;
    - [errors]: the [Error] objects, by reference;
    - [callStack]: the call sites V8 collects for a capture made by
      [getErrorStack] with itself as cut-off, i.e. the frames of
      [captureException] and its callers;
    - [requests]: the calls made to the transport, oldest first. *)
Record World : Type := {
  prepareStackTrace : option Hook;
  variables : list (option (list CallSite));
  errors : nat -> ErrorObj;
  callStack : list CallSite;
  requests : list Request
}.

Definition set_prepareStackTrace (h : option Hook) (w : World) : World :=
  {| prepareStackTrace := h; variables := variables w; errors := errors w;
     callStack := callStack w; requests := requests w |}.

Definition set_variables (vs : list (option (list CallSite))) (w : World) : World :=
  {| prepareStackTrace := prepareStackTrace w; variables := vs; errors := errors w;
     callStack := callStack w; requests := requests w |}.

Definition set_error (error : nat) (e : ErrorObj) (w : World) : World :=
  {| prepareStackTrace := prepareStackTrace w; variables := variables w;
     errors := fun r => if Nat.eqb r error then e else errors w r;
     callStack := callStack w; requests := requests w |}.

Definition add_request (r : Request) (w : World) : World :=
  {| prepareStackTrace := prepareStackTrace w; variables := variables w;
     errors := errors w; callStack := callStack w;
     requests := requests w ++ [r] |}.

(** Computations: state passing with exceptions. *)
Definition M (A : Type) : Type := World -> World * Outcome A.

Definition ret {A : Type} (a : A) : M A := fun w => (w, Val a).

Definition throw {A : Type} (x : JSValue) : M A := fun w => (w, Throw x).

Definition bind {A B : Type} (m : M A) (k : A -> M B) : M B :=
  fun w =>
    match m w with
    | (w', Val a) => k a w'
    | (w', Throw x) => (w', Throw x)
    end.

Definition gets {A : Type} (f : World -> A) : M A := fun w => (w, Val (f w)).

Definition modify (f : World -> World) : M unit := fun w => (f w, Val tt).

Definition lift {A : Type} (o : Outcome A) : M A := fun w => (w, o).

Declare Scope js_scope.
Delimit Scope js_scope with js.
Notation "x <- m ;; k" := (bind m (fun x => k))
  (at level 100, m at next level, right associativity) : js_scope.
Notation "m ;;; k" := (bind m (fun _ => k))
  (at level 100, right associativity) : js_scope.

(** [Array.prototype.map] with a callback that may throw: elements are
    visited in order and the first exception ends the traversal. *)
Fixpoint Array_map {A B : Type} (f : A -> Outcome B) (l : list A) : Outcome (list B) :=
  match l with
  | [] => Val []
  | a :: l' =>
      match f a with
      | Throw x => Throw x
      | Val b =>
          match Array_map f l' with
          | Throw x => Throw x
          | Val bs => Val (b :: bs)
          end
      end
  end.

(** ** The module *)

Section WorkerSentry.

Local Open Scope js_scope.

(** The environment the module runs in:
    - what each hook installed by the host program does when V8 calls it
      with an error and its call sites: return the formatted value, or
      throw;
    - V8's own formatting of [stack], used when no hook is installed;
    - [new URL(...)], which throws on a string that is not a URL;
    - the ambient [fetch]. *)
Variable hostHook : nat -> ErrorObj -> list CallSite -> Outcome JSValue.
Variable formatStackTrace : ErrorObj -> string.
Variable new_URL : string -> Outcome URL.
Variable globalFetch : Fetch.

(** Calling the function stored in [Error.prepareStackTrace]. The arrow
    function of [getErrorStack] is
<<
    (error, v8Trace) => {
      trace = v8Trace as CallSite[];
      return prepareStackTrace?.(error, v8Trace);
    }
>> *)
Fixpoint callHook (h : Hook) (error : nat) (v8Trace : list CallSite) : M JSValue :=
  match h with
  | HostHook id => fun w => (w, hostHook id (errors w error) v8Trace)
  | TraceHook trace prepareStackTrace =>
      fun w =>
        let w' := set_variables (<[trace := Some v8Trace]> (variables w)) w in
        match prepareStackTrace with
        | Some previous => callHook previous error v8Trace w'
        | None => (w', Val VUndefined)
        end
  end.

(** [Error.captureStackTrace(error, getErrorStack)]: the error's trace
    becomes the current call stack below the cut-off, and its [stack]
    is to be formatted again. *)
Definition Error_captureStackTrace (error : nat) : M unit :=
  fun w =>
    let e := errors w error in
    (set_error error
       {| name := name e; message := message e;
          structuredTrace := callStack w; stack := None |} w,
     Val tt).

(** Reading [error.stack]: an unformatted trace is formatted now, by the
    installed hook if there is one; the hook's result becomes the value
    of the property, and an exception of the hook leaves the read. *)
Definition get_stack (error : nat) : M JSValue :=
  fun w =>
    let e := errors w error in
    match stack e with
    | Some v => (w, Val v)
    | None =>
        match prepareStackTrace w with
        | Some h =>
            match callHook h error (structuredTrace e) w with
            | (w', Val v) =>
                (set_error error
                   {| name := name e; message := message e;
                      structuredTrace := structuredTrace e;
                      stack := Some v |} w',
                 Val v)
            | (w', Throw x) => (w', Throw x)
            end
        | None =>
            let v := VStr (formatStackTrace e) in
            (set_error error
               {| name := name e; message := message e;
                  structuredTrace := structuredTrace e;
                  stack := Some v |} w,
             Val v)
        end
    end.

(** [let trace: CallSite[];] a fresh, unassigned variable. *)
Definition declare_trace : M nat :=
  fun w => (set_variables (variables w ++ [None]) w, Val (length (variables w))).

Definition read_trace (trace : nat) : M (option (list CallSite)) :=
  gets (fun w => mjoin (variables w !! trace)).

(** [function getErrorStack(error: Error): CallSite[]], lines 33-47. The
    result is [None] when [trace] was never assigned. *)
Definition getErrorStack (error : nat) : M (option (list CallSite)) :=
  prepareStackTrace <- gets prepareStackTrace ;;
  trace <- declare_trace ;;
  modify (set_prepareStackTrace (Some (TraceHook trace prepareStackTrace))) ;;;
  Error_captureStackTrace error ;;;
  get_stack error ;;;
  modify (set_prepareStackTrace prepareStackTrace) ;;;
  read_trace trace.

(** The callback of [.map] at lines 183-192.  The accessors only return
    values, so the one step that can throw is [String(callSite.getThis())]. *)
Definition frame (callSite : CallSite) : Outcome JSValue :=
  match String_ (getThis callSite) with
  | Throw x => Throw x
  | Val this =>
      Val (VObj [("function", accessed VStr (getFunctionName callSite));
                 ("filename", accessed VStr (getFileName callSite));
                 ("lineno", accessed VNum (getLineNumber callSite));
                 ("colno", accessed VNum (getColumnNumber callSite));
                 ("in_app", VBool (negb (isNative callSite)));
                 ("vars", VObj [("this", VStr this)])])
  end.

(** The object literal given to [JSON.stringify], lines 170-217: the
    [user] and [request] sub-objects, then the whole event. *)
Definition user_properties (options : CaptureExceptionOptions)
    : list (string * JSValue) :=
  [("id", optional VStr (chain (user options) UserOptions.id));
   ("email", optional VStr (chain (user options) UserOptions.email));
   ("username", optional VStr (chain (user options) UserOptions.username));
   ("ip_address", optional VStr (chain (user options) UserOptions.ip))].

Definition request_properties (options : CaptureExceptionOptions)
    : list (string * JSValue) :=
  [("url", optional VStr (chain (request options) RequestOptions.url));
   ("method", optional VStr (chain (request options) RequestOptions.method));
   ("headers", optional of_record (chain (request options) RequestOptions.headers));
   ("query_string", optional VStr (chain (request options) RequestOptions.query));
   ("cookies", optional of_cookies (chain (request options) RequestOptions.cookies));
   ("env", optional of_record (chain (request options) RequestOptions.env))].

Definition event_properties (name message : string) (frames : list JSValue)
    (options : CaptureExceptionOptions) : list (string * JSValue) :=
  [("logger", VStr "worker");
   ("platform", VStr "javascript");
   ("level", optional of_level (level options));
   ("extra", optional VObj (extra options));
   ("fingerprint", optional of_strings (fingerprint options));
   ("exception",
     VObj [("values",
       VArr [VObj [("type", VStr name);
                   ("value", VStr message);
                   ("stacktrace", VObj [("frames", VArr frames)])]])]);
   ("tags", optional of_record (tags options));
   ("user", VObj (user_properties options));
   ("request", VObj (request_properties options));
   ("server_name", optional VStr (serverName options));
   ("transaction", optional VStr (transaction options));
   ("release", optional VStr (release options));
   ("dist", optional VStr (dist options));
   ("environment", optional VStr (environment options))].

Definition event (name message : string) (frames : list JSValue)
    (options : CaptureExceptionOptions) : JSValue :=
  VObj (event_properties name message frames options).

(** [class Sentry] *)
Record Sentry : Type := {
  sentryUrl : URL;
  fetch : Fetch
}.

(** The header object, lines 164-168. *)
Definition request_headers (this : Sentry) : list (string * string) :=
  [("Content-Type", "application/json");
   ("User-Agent", "Cloudflare-Worker/1.0");
   ("X-Sentry-Auth",
     "Sentry sentry_version=7, sentry_client=Cloudflare-Worker/1.0, sentry_key="
       +:+ username (sentryUrl this))].

(** [const request = new Request(...)], lines 160-220, in evaluation
    order: the URL template, the headers, then the body, whose literal
    reads [error.name] and [error.message], calls [getErrorStack] and
    maps the call sites ([undefined.map] is a [TypeError]), and is then
    serialised.  [url] holds the string given to the [Request]
    constructor. *)
Definition new_Request (this : Sentry) (error : nat)
    (options : CaptureExceptionOptions) : M Request :=
  let input := "https://sentry.io/api" +:+ pathname (sentryUrl this) +:+ "/store/" in
  let headers := request_headers this in
  e <- gets (fun w => errors w error) ;;
  trace <- getErrorStack error ;;
  frames <- match trace with
            | Some callSites => lift (Array_map frame callSites)
            | None => throw (TypeError "Cannot read properties of undefined (reading 'map')")
            end ;;
  body <- lift (JSON_stringify (event (name e) (message e) frames options)) ;;
  ret {| url := input;
         method := "POST";
         headers := headers;
         body := body |}.

(** [this.fetch(request)] *)
Definition call (f : Fetch) (request : Request) : M Promise :=
  fun w => (add_request request w, f request).

(** [captureException(error: Error, options: CaptureExceptionOptions = {})] *)
Definition captureException (this : Sentry) (error : nat)
    (options : option CaptureExceptionOptions) : M Promise :=
  let options := default no_options options in
  request <- new_Request this error options ;;
  call (fetch this) request.

(** [constructor(options: SentryOptions)]:
    [new URL(options.dsn)] and [options.fetch || fetch.bind(null)]. *)
Definition new_Sentry (options : SentryOptions.t) : Outcome Sentry :=
  match new_URL (SentryOptions.dsn options) with
  | Throw x => Throw x
  | Val u =>
      Val {| sentryUrl := u;
             fetch := default globalFetch (SentryOptions.fetch options) |}
  end.

End WorkerSentry.

(** ** Observations *)

(** The requests handed to the transport between two states. *)
Definition issued (before after : World) : list Request :=
  drop (length (requests before)) (requests after).

(** [data.exception.values] and [data.exception.values[0].stacktrace.frames]
    of a document. *)
Definition exception_values (doc : JSON) : option JSON :=
  match member "exception" doc with
  | Some exception => member "values" exception
  | None => None
  end.

Definition stacktrace_frames (doc : JSON) : option JSON :=
  match exception_values doc with
  | Some values =>
      match element 0 values with
      | Some value =>
          match member "stacktrace" value with
          | Some stacktrace => member "frames" stacktrace
          | None => None
          end
      | None => None
      end
  | None => None
  end.

(** The member a descriptor has for an accessor result: the value, the
    literal [null], or no member at all when the accessor returned
    [undefined]. *)
Definition passed_through {A : Type} (f : A -> JSON) (a : Accessor A) : option JSON :=
  match a with
  | Value v => Some (f v)
  | Null => Some JNull
  | Undefined => None
  end.

(** A key that is in a descriptor unless the accessor returned
    [undefined]. *)
Definition key_unless_undefined {A : Type} (k : string) (a : Accessor A) : list string :=
  match a with
  | Undefined => []
  | _ => [k]
  end.

(** An option field that is unset has no member under key [k]. *)
Definition absent_when_unset {A : Type} (field : option A) (k : string)
    (members : list (string * JSON)) : Prop :=
  field = None -> assoc k members = None.

(** The omission rule for a request's document: [user] and [request] are
    always there as objects, empty when the option is unset; every other
    key of an unset option field, at top level or inside [user] and
    [request], is absent (so not [null] either). *)
Definition unset_fields_omitted (o : CaptureExceptionOptions) (r : Request) : Prop :=
  exists top userDoc requestDoc,
    body r = Some (JObj top) /\
    assoc "user" top = Some (JObj userDoc) /\
    assoc "request" top = Some (JObj requestDoc) /\
    (user o = None -> userDoc = []) /\
    (request o = None -> requestDoc = []) /\
    (absent_when_unset (level o) "level" top /\
     absent_when_unset (extra o) "extra" top /\
     absent_when_unset (fingerprint o) "fingerprint" top /\
     absent_when_unset (tags o) "tags" top /\
     absent_when_unset (serverName o) "server_name" top /\
     absent_when_unset (transaction o) "transaction" top /\
     absent_when_unset (release o) "release" top /\
     absent_when_unset (dist o) "dist" top /\
     absent_when_unset (environment o) "environment" top /\
     absent_when_unset (modules o) "modules" top /\
     absent_when_unset (breadcrumbs o) "breadcrumbs" top) /\
    (absent_when_unset (chain (user o) UserOptions.id) "id" userDoc /\
     absent_when_unset (chain (user o) UserOptions.email) "email" userDoc /\
     absent_when_unset (chain (user o) UserOptions.username) "username" userDoc /\
     absent_when_unset (chain (user o) UserOptions.ip) "ip_address" userDoc) /\
    (absent_when_unset (chain (request o) RequestOptions.url) "url" requestDoc /\
     absent_when_unset (chain (request o) RequestOptions.method) "method" requestDoc /\
     absent_when_unset (chain (request o) RequestOptions.headers) "headers" requestDoc /\
     absent_when_unset (chain (request o) RequestOptions.query) "query_string" requestDoc /\
     absent_when_unset (chain (request o) RequestOptions.cookies) "cookies" requestDoc /\
     absent_when_unset (chain (request o) RequestOptions.env) "env" requestDoc).

(** What the arrow function of [getErrorStack] returns for the hook it
    replaced: [prepareStackTrace?.(error, v8Trace)], i.e. the result of
    the host's hook at the end of the chain, or [undefined] when there is
    none. *)
Fixpoint hookResult (hostHook : nat -> ErrorObj -> list CallSite -> Outcome JSValue)
    (h : Hook) (e : ErrorObj) (v8Trace : list CallSite) : Outcome JSValue :=
  match h with
  | HostHook id => hostHook id e v8Trace
  | TraceHook _ prepareStackTrace =>
      match prepareStackTrace with
      | Some previous => hookResult hostHook previous e v8Trace
      | None => Val VUndefined
      end
  end.

Definition savedHookResult (hostHook : nat -> ErrorObj -> list CallSite -> Outcome JSValue)
    (prepareStackTrace : option Hook) (e : ErrorObj) (v8Trace : list CallSite)
    : Outcome JSValue :=
  match prepareStackTrace with
  | Some previous => hookResult hostHook previous e v8Trace
  | None => Val VUndefined
  end.

(** An error object right after [Error.captureStackTrace]: same [name]
    and [message], the given trace, [stack] not formatted yet. *)
Definition recaptured (e : ErrorObj) (v8Trace : list CallSite) : ErrorObj :=
  {| name := name e; message := message e;
     structuredTrace := v8Trace; stack := None |}.

(** The same object once [stack] has been formatted to [v]. *)
Definition formatted (e : ErrorObj) (v8Trace : list CallSite) (v : JSValue) : ErrorObj :=
  {| name := name e; message := message e;
     structuredTrace := v8Trace; stack := Some v |}.

(** A key that is in the document exactly when its option field is set. *)
Definition key_if_set {A : Type} (k : string) (field : option A) : list string :=
  match field with
  | Some _ => [k]
  | None => []
  end.

(** The keys of the event document, in order, for given options. *)
Definition event_keys (o : CaptureExceptionOptions) : list string :=
  ["logger"; "platform"]
    ++ key_if_set "level" (level o)
    ++ key_if_set "extra" (extra o)
    ++ key_if_set "fingerprint" (fingerprint o)
    ++ ["exception"]
    ++ key_if_set "tags" (tags o)
    ++ ["user"; "request"]
    ++ key_if_set "server_name" (serverName o)
    ++ key_if_set "transaction" (transaction o)
    ++ key_if_set "release" (release o)
    ++ key_if_set "dist" (dist o)
    ++ key_if_set "environment" (environment o).

(** A [Record<string, string>] and a [cookies] value as they appear in a
    document. *)
Definition JSON_record (r : list (string * string)) : JSON :=
  JObj (map (fun kv => (fst kv, JStr (snd kv))) r).

Definition JSON_cookies (c : Cookies) : JSON :=
  match c with
  | CookieString s => JStr s
  | CookieRecord r => JSON_record r
  | CookiePairs l => JArr (map (fun kv => JArr [JStr (fst kv); JStr (snd kv)]) l)
  end.

(** ** A concrete environment

    The setting of the repository's test: the DSN
    [https://123@456.ingest.sentry.io/789], [new Error("Boom!")], and a
    transport that resolves with status 200. *)

Module Example.

Definition dsn : string := "https://123@456.ingest.sentry.io/789".

(** The components the platform's URL parser gives for [dsn]. *)
Definition dsn_url : URL :=
  {| protocol := "https:"; username := "123"; password := EmptyString;
     host := "456.ingest.sentry.io"; pathname := "/789";
     search := EmptyString; hash := EmptyString |}.

(** [new URL] on the one string the examples use; any other string is
    treated as not a URL. *)
Definition new_URL (s : string) : Outcome URL :=
  if String.eqb s dsn then Val dsn_url else Throw (TypeError "Invalid URL").

Definition ok : Fetch := fun _ => Val (Fulfilled {| status := 200 |}).

Definition failing (reason : JSValue) : Fetch := fun _ => Val (Rejected reason).

Definition sentryOptions : SentryOptions.t :=
  {| SentryOptions.dsn := dsn; SentryOptions.fetch := Some ok |}.

Definition sentry : Sentry := {| sentryUrl := dsn_url; fetch := ok |}.

(** Host hook 0 throws; every other host hook formats to a fixed string. *)
Definition hostHook (id : nat) (e : ErrorObj) (v8Trace : list CallSite)
    : Outcome JSValue :=
  match id with
  | 0 => Throw (VStr "prepareStackTrace failed")
  | _ => Val (VStr "formatted")
  end.

Definition formatStackTrace (e : ErrorObj) : string :=
  name e +:+ ": " +:+ message e.

(** The frame of [captureException] itself and a native caller. *)
Definition inModule : CallSite :=
  {| getThis := ThisUndefined;
     getFunctionName := Value "captureException";
     getFileName := Value "/worker-sentry/src/index.ts";
     getLineNumber := Value 183%Z; getColumnNumber := Value 27%Z;
     isNative := false |}.

Definition native : CallSite :=
  {| getThis := ThisUndefined; getFunctionName := Null; getFileName := Null;
     getLineNumber := Null; getColumnNumber := Null; isNative := true |}.

(** A frame of code run by [eval]: [getFileName()] is [undefined]. *)
Definition evaluated : CallSite :=
  {| getThis := ThisUndefined; getFunctionName := Value "eval";
     getFileName := Undefined;
     getLineNumber := Value 1%Z; getColumnNumber := Value 1%Z;
     isNative := false |}.

(** [new Error("Boom!")], thrown elsewhere: its trace is the throw site. *)
Definition thrown : CallSite :=
  {| getThis := ThisUndefined; getFunctionName := Value "handler";
     getFileName := Value "/app/worker.js";
     getLineNumber := Value 40%Z; getColumnNumber := Value 11%Z;
     isNative := false |}.

Definition boom : ErrorObj :=
  {| name := "Error"; message := "Boom!";
     structuredTrace := [thrown]; stack := Some (VStr "Error: Boom!") |}.

(** No hook installed, no call made yet. *)
Definition world : World :=
  {| prepareStackTrace := None; variables := [];
     errors := fun _ => boom;
     callStack := [inModule; native];
     requests := [] |}.

(** The same process after the host installed hook 0. *)
Definition hooked : World := set_prepareStackTrace (Some (HostHook 0)) world.

(** The options of the test "should send all properties". *)
Definition allProperties : CaptureExceptionOptions :=
  {| level := Some SentryLevel.error;
     release := Some "test";
     dist := Some "test";
     fingerprint := Some [];
     environment := Some "production";
     serverName := Some "test";
     breadcrumbs :=
       Some [{| Breadcrumb.timestamp := None; Breadcrumb.type := Some "error";
                Breadcrumb.category := None; Breadcrumb.message := Some "error";
                Breadcrumb.data := None; Breadcrumb.level := None |}];
     transaction := Some "test";
     tags := Some [("test", "test")];
     extra := Some [("test", VBool true)];
     modules := None; user := None; request := None |}.

(** The process after the host installed hook 1, which formats. *)
Definition formatting : World := set_prepareStackTrace (Some (HostHook 1)) world.

(** The report is made from evaluated code. *)
Definition fromEval : World :=
  {| prepareStackTrace := None; variables := [];
     errors := fun _ => boom;
     callStack := [inModule; evaluated; native];
     requests := [] |}.

(** [{ extra: { count: 1n } }]: type-correct options that [JSON.stringify]
    refuses. *)
Definition withBigInt : CaptureExceptionOptions :=
  {| level := None; extra := Some [("count", VBigInt 1)]; tags := None;
     release := None; dist := None; environment := None; serverName := None;
     transaction := None; modules := None; user := None;
     fingerprint := None; request := None; breadcrumbs := None |}.

(** Options with a user and a request. *)
Definition detailed : CaptureExceptionOptions :=
  {| level := Some SentryLevel.warning; extra := None;
     tags := Some [("region", "eu")]; release := None; dist := None;
     environment := Some "staging"; serverName := Some "edge-1";
     transaction := None; modules := None;
     user := Some {| UserOptions.id := Some "42"; UserOptions.username := None;
                     UserOptions.email := Some "a@example.com";
                     UserOptions.ip := Some "203.0.113.7" |};
     fingerprint := Some ["boom"];
     request := Some {| RequestOptions.method := Some "GET";
                        RequestOptions.url := Some "https://example.com/";
                        RequestOptions.headers := Some [("accept", "*/*")];
                        RequestOptions.query := Some "a=1";
                        RequestOptions.cookies := Some (CookiePairs [("sid", "1")]);
                        RequestOptions.env := None |};
     breadcrumbs := None |}.

(** The request [captureException(new Error("Boom!"))] hands to the
    transport in [world]. *)
Definition request : Request :=
  {| url := "https://sentry.io/api/789/store/";
     method := "POST";
     headers :=
       [("Content-Type", "application/json");
        ("User-Agent", "Cloudflare-Worker/1.0");
        ("X-Sentry-Auth",
          "Sentry sentry_version=7, sentry_client=Cloudflare-Worker/1.0, sentry_key=123")];
     body :=
       Some (JObj
         [("logger", JStr "worker");
          ("platform", JStr "javascript");
          ("exception",
            JObj [("values",
              JArr [JObj
                [("type", JStr "Error");
                 ("value", JStr "Boom!");
                 ("stacktrace",
                   JObj [("frames",
                     JArr [JObj [("function", JStr "captureException");
                                 ("filename", JStr "/worker-sentry/src/index.ts");
                                 ("lineno", JNum 183);
                                 ("colno", JNum 27);
                                 ("in_app", JBool true);
                                 ("vars", JObj [("this", JStr "undefined")])];
                           JObj [("function", JNull);
                                 ("filename", JNull);
                                 ("lineno", JNull);
                                 ("colno", JNull);
                                 ("in_app", JBool false);
                                 ("vars", JObj [("this", JStr "undefined")])]])])]])]);
          ("user", JObj []);
          ("request", JObj [])]) |}.

(** The request [captureException(new Error("Boom!"), detailed)] hands to
    the transport in [world]. *)
Definition detailedRequest : Request :=
  Eval vm_compute in
    hd request
      (issued world
         (fst (captureException hostHook formatStackTrace sentry 0 (Some detailed) world))).

(** The request handed to the transport in [fromEval]. *)
Definition fromEvalRequest : Request :=
  Eval vm_compute in
    hd request
      (issued fromEval
         (fst (captureException hostHook formatStackTrace sentry 0 None fromEval))).

End Example.

(** ** Serialisation lemmas *)

Lemma SerializeJSONProperty_VArr (l : list JSValue) :
  SerializeJSONProperty (VArr l) = Some (JArr (SerializeJSONArray l)).
Proof. reflexivity. Qed.

Lemma SerializeJSONProperty_VObj (l : list (string * JSValue)) :
  SerializeJSONProperty (VObj l) = Some (JObj (SerializeJSONObject l)).
Proof. reflexivity. Qed.

Lemma assoc_SerializeJSONObject (k : string) (l : list (string * JSValue)) :
  assoc k (SerializeJSONObject l) = literal_member k l.
Proof.
  induction l as [|[k' x] l IH]; cbn; [reflexivity|].
  destruct (SerializeJSONProperty x) as [j|] eqn:Hx; cbn.
  - destruct (String.eqb k' k); [reflexivity | exact IH].
  - destruct (String.eqb k' k); exact IH.
Qed.

Lemma length_SerializeJSONArray (l : list JSValue) :
  length (SerializeJSONArray l) = length l.
Proof.
  induction l as [|x l IH]; cbn; [reflexivity|].
  destruct (SerializeJSONProperty x); cbn; rewrite IH; reflexivity.
Qed.

Lemma lookup_SerializeJSONArray (l : list JSValue) (i : nat) (x : JSValue) (j : JSON) :
  l !! i = Some x ->
  SerializeJSONProperty x = Some j ->
  SerializeJSONArray l !! i = Some j.
Proof.
  revert i. induction l as [|y l IH]; intros [|i] Hi Hx; cbn in *; try discriminate.
  - injection Hi as ->. rewrite Hx. reflexivity.
  - destruct (SerializeJSONProperty y); cbn; apply IH; assumption.
Qed.

(** ** [Array_map] *)

Lemma Array_map_length {A B : Type} (f : A -> Outcome B) (l : list A) (bs : list B) :
  Array_map f l = Val bs -> length bs = length l.
Proof.
  revert bs. induction l as [|a l IH]; cbn; intros bs H.
  - injection H as <-. reflexivity.
  - destruct (f a); [|discriminate].
    destruct (Array_map f l); [|discriminate].
    injection H as <-. cbn. f_equal. apply IH. reflexivity.
Qed.

Lemma Array_map_lookup {A B : Type} (f : A -> Outcome B) (l : list A) (bs : list B)
    (i : nat) (a : A) :
  Array_map f l = Val bs ->
  l !! i = Some a ->
  exists b, f a = Val b /\ bs !! i = Some b.
Proof.
  revert bs i. induction l as [|a' l IH]; cbn; intros bs i H Hi; [discriminate|].
  destruct (f a') as [b'|] eqn:Hf; [|discriminate].
  destruct (Array_map f l) as [bs'|]; [|discriminate].
  injection H as <-.
  destruct i as [|i]; cbn in *.
  - injection Hi as ->. exists b'. split; [assumption | reflexivity].
  - apply IH; [reflexivity | assumption].
Qed.

(** ** The stack extractor *)

(** Induction on hooks, through the hook a [TraceHook] replaced. *)
Lemma Hook_chain_ind (P : Hook -> Prop)
    (Hhost : forall id, P (HostHook id))
    (Hfirst : forall trace, P (TraceHook trace None))
    (Hnext : forall trace previous, P previous -> P (TraceHook trace (Some previous))) :
  forall h, P h.
Proof.
  fix IH 1. intros [id | trace [previous|]].
  - apply Hhost.
  - apply Hnext, IH.
  - apply Hfirst.
Qed.

(** A hook is never the hook it wraps. *)
Lemma TraceHook_neq (trace : nat) (h : Hook) : TraceHook trace (Some h) <> h.
Proof.
  revert trace. induction h using Hook_chain_ind; intros n; try discriminate.
  intros [= -> H]. exact (IHh _ H).
Qed.

Lemma TraceHook_not_restored (trace : nat) (h : option Hook) :
  Some (TraceHook trace h) <> h.
Proof.
  destruct h as [h|]; [|discriminate].
  intros [= H]. exact (TraceHook_neq _ _ H).
Qed.

Section Extractor.

Variable hostHook : nat -> ErrorObj -> list CallSite -> Outcome JSValue.
Variable formatStackTrace : ErrorObj -> string.

(** Calling a hook touches nothing but [trace] variables. *)
Lemma callHook_frame (h : Hook) (error : nat) (t : list CallSite) (w : World) :
  let w' := fst (callHook hostHook h error t w) in
  prepareStackTrace w' = prepareStackTrace w /\
  errors w' = errors w /\
  callStack w' = callStack w /\
  requests w' = requests w /\
  length (variables w') = length (variables w).
Proof.
  revert w. induction h as [id | trace | trace previous IH] using Hook_chain_ind;
    intros w; cbn.
  - repeat split.
  - repeat split. apply length_insert.
  - destruct (IH (set_variables (<[trace := Some t]> (variables w)) w))
      as (H1 & H2 & H3 & H4 & H5).
    cbn in *. repeat split; try assumption.
    rewrite H5. apply length_insert.
Qed.

(** Every [trace] variable a hook chain writes receives the same call
    sites, so a variable that holds them keeps them. *)
Lemma callHook_keeps (h : Hook) (error : nat) (t : list CallSite) (w : World) (i : nat) :
  variables w !! i = Some (Some t) ->
  variables (fst (callHook hostHook h error t w)) !! i = Some (Some t).
Proof.
  revert w. induction h as [id | trace | trace previous IH] using Hook_chain_ind;
    intros w Hi; cbn.
  - exact Hi.
  - destruct (decide (trace = i)) as [->|Hne].
    + apply list_lookup_insert_eq. eapply lookup_lt_Some, Hi.
    + rewrite list_lookup_insert_ne; assumption.
  - apply IH. cbn.
    destruct (decide (trace = i)) as [->|Hne].
    + apply list_lookup_insert_eq. eapply lookup_lt_Some, Hi.
    + rewrite list_lookup_insert_ne; assumption.
Qed.

Lemma callHook_assigns (trace : nat) (previous : option Hook) (error : nat)
    (t : list CallSite) (w : World) :
  trace < length (variables w) ->
  variables (fst (callHook hostHook (TraceHook trace previous) error t w)) !! trace
    = Some (Some t).
Proof.
  intros Hlt. cbn.
  destruct previous as [p|]; cbn.
  - apply callHook_keeps. cbn. apply list_lookup_insert_eq. exact Hlt.
  - apply list_lookup_insert_eq. exact Hlt.
Qed.

(** The two ways a call of [getErrorStack] ends.  If the hook chain
    throws, the exception leaves the function with the arrow function
    still installed; otherwise the saved hook is put back and the result
    is the call stack of the capture. *)
Lemma getErrorStack_cases (error : nat) (w : World) :
  let hook := TraceHook (length (variables w)) (prepareStackTrace w) in
  (exists w' x,
      getErrorStack hostHook formatStackTrace error w = (w', Throw x) /\
      prepareStackTrace w' = Some hook /\
      stack (errors w' error) = None /\
      structuredTrace (errors w' error) = callStack w /\
      requests w' = requests w /\ callStack w' = callStack w)
  \/
  (exists w' v,
      getErrorStack hostHook formatStackTrace error w = (w', Val (Some (callStack w))) /\
      prepareStackTrace w' = prepareStackTrace w /\
      stack (errors w' error) = Some v /\
      structuredTrace (errors w' error) = callStack w /\
      requests w' = requests w /\ callStack w' = callStack w).
Proof.
  cbn zeta.
  unfold getErrorStack, bind, gets, modify, declare_trace,
    Error_captureStackTrace, get_stack, read_trace.
  cbn -[callHook]. rewrite Nat.eqb_refl. cbn -[callHook].
  match goal with
  | |- context [callHook _ ?h ?e ?t ?w1] =>
      pose proof (callHook_frame h e t w1) as Hframe;
      pose proof (callHook_assigns (length (variables w)) (prepareStackTrace w) e t w1) as Hassign;
      destruct (callHook hostHook h e t w1) as [w2 [v|x]] eqn:Hcall
  end.
  - right. cbn in Hframe, Hassign |- *.
    destruct Hframe as (H1 & H2 & H3 & H4 & H5).
    eexists _, v. unfold gets. cbn.
    rewrite Hassign by (rewrite length_app; cbn; lia).
    split; [reflexivity|]. cbn. rewrite Nat.eqb_refl. cbn.
    repeat split; assumption.
  - left. cbn in Hframe |- *.
    destruct Hframe as (H1 & H2 & H3 & H4 & H5).
    eexists _, x. cbn.
    repeat split; try assumption.
    + rewrite H2. cbn. rewrite Nat.eqb_refl. reflexivity.
    + rewrite H2. cbn. rewrite Nat.eqb_refl. reflexivity.
Qed.

End Extractor.

(** ** The dispatcher *)

Lemma issued_nil (w w' : World) :
  requests w' = requests w -> issued w w' = [].
Proof.
  intros H. unfold issued. rewrite H. apply drop_all.
Qed.

Lemma issued_add_request (w w' : World) (r : Request) :
  requests w' = requests w -> issued w (add_request r w') = [r].
Proof.
  intros H. unfold issued. cbn. rewrite H.
  rewrite drop_app_length. reflexivity.
Qed.

Section Dispatcher.

Variable hostHook : nat -> ErrorObj -> list CallSite -> Outcome JSValue.
Variable formatStackTrace : ErrorObj -> string.

(** An exception of the extractor leaves [new Request(...)] unchanged. *)
Lemma new_Request_extraction_throws (this : Sentry) (error : nat)
    (options : CaptureExceptionOptions) (w w' : World) (x : JSValue) :
  getErrorStack hostHook formatStackTrace error w = (w', Throw x) ->
  new_Request hostHook formatStackTrace this error options w = (w', Throw x).
Proof.
  intros H. unfold new_Request, bind, gets. rewrite H. reflexivity.
Qed.

(** The request that is built when extraction, frame mapping and
    serialisation return. *)
Lemma new_Request_returns (this : Sentry) (error : nat)
    (options : CaptureExceptionOptions) (w w' : World)
    (callSites : list CallSite) (frames : list JSValue) :
  getErrorStack hostHook formatStackTrace error w = (w', Val (Some callSites)) ->
  Array_map frame callSites = Val frames ->
  unserialisable (event (name (errors w error)) (message (errors w error))
                    frames options) = None ->
  new_Request hostHook formatStackTrace this error options w =
    (w', Val {| url := "https://sentry.io/api" +:+ pathname (sentryUrl this) +:+ "/store/";
                method := "POST";
                headers := request_headers this;
                body := SerializeJSONProperty
                          (event (name (errors w error)) (message (errors w error))
                             frames options) |}).
Proof.
  intros H Hmap Hser. unfold new_Request, bind, gets, lift, ret, JSON_stringify.
  rewrite H, Hmap, Hser. reflexivity.
Qed.

Lemma new_Request_mapping_throws (this : Sentry) (error : nat)
    (options : CaptureExceptionOptions) (w w' : World)
    (callSites : list CallSite) (x : JSValue) :
  getErrorStack hostHook formatStackTrace error w = (w', Val (Some callSites)) ->
  Array_map frame callSites = Throw x ->
  new_Request hostHook formatStackTrace this error options w = (w', Throw x).
Proof.
  intros H Hmap. unfold new_Request, bind, gets, lift, ret.
  rewrite H, Hmap. reflexivity.
Qed.

Lemma new_Request_serialisation_throws (this : Sentry) (error : nat)
    (options : CaptureExceptionOptions) (w w' : World)
    (callSites : list CallSite) (frames : list JSValue) (x : JSValue) :
  getErrorStack hostHook formatStackTrace error w = (w', Val (Some callSites)) ->
  Array_map frame callSites = Val frames ->
  unserialisable (event (name (errors w error)) (message (errors w error))
                    frames options) = Some x ->
  new_Request hostHook formatStackTrace this error options w = (w', Throw x).
Proof.
  intros H Hmap Hser. unfold new_Request, bind, gets, lift, ret, JSON_stringify.
  rewrite H, Hmap, Hser. reflexivity.
Qed.

(** Every run of [new Request(...)]: it throws without touching the
    transport, or it returns the request above, built from the call
    stack of the capture. *)
Lemma new_Request_cases (this : Sentry) (error : nat)
    (options : CaptureExceptionOptions) (w : World) :
  (exists w' x,
      new_Request hostHook formatStackTrace this error options w = (w', Throw x) /\
      requests w' = requests w /\
      structuredTrace (errors w' error) = callStack w)
  \/
  (exists w' frames v,
      new_Request hostHook formatStackTrace this error options w =
        (w', Val {| url := "https://sentry.io/api" +:+ pathname (sentryUrl this) +:+ "/store/";
                    method := "POST";
                    headers := request_headers this;
                    body := SerializeJSONProperty
                              (event (name (errors w error)) (message (errors w error))
                                 frames options) |}) /\
      Array_map frame (callStack w) = Val frames /\
      prepareStackTrace w' = prepareStackTrace w /\
      requests w' = requests w /\
      structuredTrace (errors w' error) = callStack w /\
      stack (errors w' error) = Some v).
Proof.
  destruct (getErrorStack_cases hostHook formatStackTrace error w)
    as [(w' & x & H & _ & _ & Htrace & Hreq & _)
       |(w' & v & H & Hhook & Hstack & Htrace & Hreq & _)].
  - left. exists w', x. split; [|split; assumption].
    apply new_Request_extraction_throws, H.
  - destruct (Array_map frame (callStack w)) as [frames|x] eqn:Hmap.
    + destruct (unserialisable
                  (event (name (errors w error)) (message (errors w error))
                     frames options)) as [x|] eqn:Hser.
      * left. exists w', x. split; [|split; assumption].
        eapply new_Request_serialisation_throws; eassumption.
      * right. exists w', frames, v.
        split; [eapply new_Request_returns; eassumption|].
        repeat split; assumption.
    + left. exists w', x. split; [|split; assumption].
      eapply new_Request_mapping_throws; eassumption.
Qed.

(** [captureException] is [new Request(...)] followed by one call of
    [this.fetch]. *)
Lemma captureException_throws (this : Sentry) (error : nat)
    (options : option CaptureExceptionOptions) (w w' : World) (x : JSValue) :
  new_Request hostHook formatStackTrace this error (default no_options options) w
    = (w', Throw x) ->
  captureException hostHook formatStackTrace this error options w = (w', Throw x).
Proof.
  intros H. unfold captureException, bind. rewrite H. reflexivity.
Qed.

Lemma captureException_calls (this : Sentry) (error : nat)
    (options : option CaptureExceptionOptions) (w w' : World) (r : Request) :
  new_Request hostHook formatStackTrace this error (default no_options options) w
    = (w', Val r) ->
  captureException hostHook formatStackTrace this error options w
    = (add_request r w', fetch this r).
Proof.
  intros H. unfold captureException, bind, call. rewrite H. reflexivity.
Qed.

(** What a call that handed request [r] to the transport did. *)
Lemma captureException_issued (this : Sentry) (error : nat)
    (options : option CaptureExceptionOptions) (w : World) (r : Request) :
  issued w (fst (captureException hostHook formatStackTrace this error options w)) = [r] ->
  exists frames,
    Array_map frame (callStack w) = Val frames /\
    r = {| url := "https://sentry.io/api" +:+ pathname (sentryUrl this) +:+ "/store/";
           method := "POST";
           headers := request_headers this;
           body := SerializeJSONProperty
                     (event (name (errors w error)) (message (errors w error))
                        frames (default no_options options)) |}.
Proof.
  intros Hissued.
  destruct (new_Request_cases this error (default no_options options) w)
    as [(w' & x & H & Hreq & _)|(w' & frames & v & H & Hmap & _ & Hreq & _)].
  - rewrite (captureException_throws _ _ _ _ _ _ H) in Hissued. cbn in Hissued.
    rewrite (issued_nil _ _ Hreq) in Hissued. discriminate.
  - rewrite (captureException_calls _ _ _ _ _ _ H) in Hissued. cbn in Hissued.
    rewrite (issued_add_request _ _ _ Hreq) in Hissued.
    injection Hissued as <-. exists frames. split; [assumption | reflexivity].
Qed.

End Dispatcher.

(** ** The outbound request *)

(** C1, as amended. For every client built by the constructor from a
    connection string, every request [captureException] hands to the
    transport is addressed to [https://sentry.io/api<pathname>/store/],
    where [<pathname>] is the path component of the connection string; the
    host is the literal [sentry.io], whatever host the connection string
    names. *)
Theorem captureException_url
    (new_URL : string -> Outcome URL) (globalFetch : Fetch)
    (hostHook : nat -> ErrorObj -> list CallSite -> Outcome JSValue)
    (formatStackTrace : ErrorObj -> string)
    (sentryOptions : SentryOptions.t) (this : Sentry)
    (error : nat) (options : option CaptureExceptionOptions)
    (w : World) (r : Request) :
  new_Sentry new_URL globalFetch sentryOptions = Val this ->
  issued w (fst (captureException hostHook formatStackTrace this error options w)) = [r] ->
  exists u,
    new_URL (SentryOptions.dsn sentryOptions) = Val u /\
    url r = "https://sentry.io/api" +:+ pathname u +:+ "/store/".
Proof.
  unfold new_Sentry. intros Hnew Hissued.
  destruct (new_URL (SentryOptions.dsn sentryOptions)) as [u|x]; [|discriminate].
  injection Hnew as <-. exists u. split; [reflexivity|].
  apply captureException_issued in Hissued as (frames & _ & ->).
  reflexivity.
Qed.

Lemma captureException_url_witness :
  new_Sentry Example.new_URL Example.ok Example.sentryOptions = Val Example.sentry /\
  issued Example.world
    (fst (captureException Example.hostHook Example.formatStackTrace
            Example.sentry 0 None Example.world)) = [Example.request] /\
  exists u,
    Example.new_URL (SentryOptions.dsn Example.sentryOptions) = Val u /\
    url Example.request = "https://sentry.io/api" +:+ pathname u +:+ "/store/".
Proof.
  split; [reflexivity|]. split; [reflexivity|].
  apply (captureException_url Example.new_URL Example.ok Example.hostHook
           Example.formatStackTrace Example.sentryOptions Example.sentry
           0 None Example.world Example.request); reflexivity.
Defined.

(** C1, as stated, fails: the client built from
    [https://123@456.ingest.sentry.io/789] addresses its request to
    [sentry.io], not to the host [456.ingest.sentry.io] of the connection
    string. *)
Lemma captureException_url_ignores_host :
  new_Sentry Example.new_URL Example.ok Example.sentryOptions = Val Example.sentry /\
  issued Example.world
    (fst (captureException Example.hostHook Example.formatStackTrace
            Example.sentry 0 None Example.world)) = [Example.request] /\
  url Example.request <>
    "https://" +:+ host (sentryUrl Example.sentry) +:+ "/api"
      +:+ pathname (sentryUrl Example.sentry) +:+ "/store/".
Proof.
  split; [reflexivity|]. split; [reflexivity|]. cbn. discriminate.
Qed.

(** C9. Every request handed to the transport carries exactly the headers
    [Content-Type: application/json], [User-Agent: Cloudflare-Worker/1.0]
    and [X-Sentry-Auth: Sentry sentry_version=7,
    sentry_client=Cloudflare-Worker/1.0, sentry_key=<username>], where
    [<username>] is the username component of the connection string given
    to the constructor. *)
Theorem captureException_headers
    (new_URL : string -> Outcome URL) (globalFetch : Fetch)
    (hostHook : nat -> ErrorObj -> list CallSite -> Outcome JSValue)
    (formatStackTrace : ErrorObj -> string)
    (sentryOptions : SentryOptions.t) (this : Sentry)
    (error : nat) (options : option CaptureExceptionOptions)
    (w : World) (r : Request) :
  new_Sentry new_URL globalFetch sentryOptions = Val this ->
  issued w (fst (captureException hostHook formatStackTrace this error options w)) = [r] ->
  exists u,
    new_URL (SentryOptions.dsn sentryOptions) = Val u /\
    headers r =
      [("Content-Type", "application/json");
       ("User-Agent", "Cloudflare-Worker/1.0");
       ("X-Sentry-Auth",
         "Sentry sentry_version=7, sentry_client=Cloudflare-Worker/1.0, sentry_key="
           +:+ username u)].
Proof.
  unfold new_Sentry. intros Hnew Hissued.
  destruct (new_URL (SentryOptions.dsn sentryOptions)) as [u|x]; [|discriminate].
  injection Hnew as <-. exists u. split; [reflexivity|].
  apply captureException_issued in Hissued as (frames & _ & ->).
  reflexivity.
Qed.

Lemma captureException_headers_witness :
  new_Sentry Example.new_URL Example.ok Example.sentryOptions = Val Example.sentry /\
  issued Example.world
    (fst (captureException Example.hostHook Example.formatStackTrace
            Example.sentry 0 None Example.world)) = [Example.request] /\
  exists u,
    Example.new_URL (SentryOptions.dsn Example.sentryOptions) = Val u /\
    headers Example.request =
      [("Content-Type", "application/json");
       ("User-Agent", "Cloudflare-Worker/1.0");
       ("X-Sentry-Auth",
         "Sentry sentry_version=7, sentry_client=Cloudflare-Worker/1.0, sentry_key="
           +:+ username u)].
Proof.
  split; [reflexivity|]. split; [reflexivity|].
  apply (captureException_headers Example.new_URL Example.ok Example.hostHook
           Example.formatStackTrace Example.sentryOptions Example.sentry
           0 None Example.world Example.request); reflexivity.
Defined.

(** ** The event document *)

(** The document is the serialised object literal, member by member. *)
Lemma event_document (name message : string) (frames : list JSValue)
    (options : CaptureExceptionOptions) :
  exists members,
    SerializeJSONProperty (event name message frames options) = Some (JObj members) /\
    exception_values (JObj members) =
      Some (JArr [JObj [("type", JStr name);
                        ("value", JStr message);
                        ("stacktrace",
                          JObj [("frames", JArr (SerializeJSONArray frames))])]]).
Proof.
  unfold event. rewrite SerializeJSONProperty_VObj.
  eexists. split; [reflexivity|].
  unfold exception_values, member. rewrite assoc_SerializeJSONObject.
  reflexivity.
Qed.

(** C5. For an error with name [n] and message [m], the document of every
    request handed to the transport has an [exception.values] list of
    exactly one element, whose [type] is [n] and whose [value] is [m]. *)
Theorem exception_type_and_value
    (hostHook : nat -> ErrorObj -> list CallSite -> Outcome JSValue)
    (formatStackTrace : ErrorObj -> string)
    (this : Sentry) (error : nat) (options : option CaptureExceptionOptions)
    (w : World) (r : Request) :
  issued w (fst (captureException hostHook formatStackTrace this error options w)) = [r] ->
  exists doc value,
    body r = Some doc /\
    exception_values doc = Some (JArr [value]) /\
    member "type" value = Some (JStr (name (errors w error))) /\
    member "value" value = Some (JStr (message (errors w error))).
Proof.
  intros Hissued.
  apply captureException_issued in Hissued as (frames & _ & ->).
  destruct (event_document (name (errors w error)) (message (errors w error))
              frames (default no_options options)) as (members & Hdoc & Hvalues).
  cbn [body]. rewrite Hdoc.
  eexists _, _. split; [reflexivity|]. split; [exact Hvalues|].
  split; reflexivity.
Qed.

Lemma exception_type_and_value_witness :
  issued Example.world
    (fst (captureException Example.hostHook Example.formatStackTrace
            Example.sentry 0 None Example.world)) = [Example.request] /\
  exists doc value,
    body Example.request = Some doc /\
    exception_values doc = Some (JArr [value]) /\
    member "type" value = Some (JStr (name (errors Example.world 0))) /\
    member "value" value = Some (JStr (message (errors Example.world 0))).
Proof.
  split; [reflexivity|].
  apply (exception_type_and_value Example.hostHook Example.formatStackTrace
           Example.sentry 0 None Example.world Example.request).
  reflexivity.
Defined.

(** What one frame descriptor looks like in the document. *)
Lemma frame_serialised (callSite : CallSite) (v : JSValue) :
  frame callSite = Val v ->
  exists this members,
    String_ (getThis callSite) = Val this /\
    SerializeJSONProperty v = Some (JObj members) /\
    assoc "function" members = passed_through JStr (getFunctionName callSite) /\
    assoc "filename" members = passed_through JStr (getFileName callSite) /\
    assoc "lineno" members = passed_through JNum (getLineNumber callSite) /\
    assoc "colno" members = passed_through JNum (getColumnNumber callSite) /\
    assoc "in_app" members = Some (JBool (negb (isNative callSite))) /\
    assoc "vars" members = Some (JObj [("this", JStr this)]) /\
    map fst members =
      key_unless_undefined "function" (getFunctionName callSite)
        ++ key_unless_undefined "filename" (getFileName callSite)
        ++ key_unless_undefined "lineno" (getLineNumber callSite)
        ++ key_unless_undefined "colno" (getColumnNumber callSite)
        ++ ["in_app"; "vars"].
Proof.
  unfold frame. destruct (String_ (getThis callSite)) as [this|x]; [|discriminate].
  intros [= <-]. exists this.
  destruct (getFunctionName callSite), (getFileName callSite),
    (getLineNumber callSite), (getColumnNumber callSite);
    eexists; repeat split.
Qed.

Lemma stacktrace_frames_of_values (members : list (string * JSON)) (name message : string)
    (frames : list JSON) :
  exception_values (JObj members) =
    Some (JArr [JObj [("type", JStr name);
                      ("value", JStr message);
                      ("stacktrace", JObj [("frames", JArr frames)])]]) ->
  stacktrace_frames (JObj members) = Some (JArr frames).
Proof.
  intros H. unfold stacktrace_frames. rewrite H. reflexivity.
Qed.

(** C6. In the document of every request handed to the transport, the
    frame list has one descriptor per call site of the extracted stack, in
    order; each descriptor's [in_app] is the negation of the call site's
    [isNative()], and its [function], [filename], [lineno] and [colno] are
    what [getFunctionName()], [getFileName()], [getLineNumber()] and
    [getColumnNumber()] return, unmodified: the value, [null] where the
    accessor returns [null], and no member at all where it returns
    [undefined] (as [getFileName()] does for evaluated code). *)
Theorem frame_descriptor_fields
    (hostHook : nat -> ErrorObj -> list CallSite -> Outcome JSValue)
    (formatStackTrace : ErrorObj -> string)
    (this : Sentry) (error : nat) (options : option CaptureExceptionOptions)
    (w : World) (r : Request) :
  issued w (fst (captureException hostHook formatStackTrace this error options w)) = [r] ->
  exists doc descriptors,
    body r = Some doc /\
    stacktrace_frames doc = Some (JArr descriptors) /\
    length descriptors = length (callStack w) /\
    forall (i : nat) (callSite : CallSite),
      callStack w !! i = Some callSite ->
      exists descriptor,
        descriptors !! i = Some descriptor /\
        member "in_app" descriptor = Some (JBool (negb (isNative callSite))) /\
        member "function" descriptor = passed_through JStr (getFunctionName callSite) /\
        member "filename" descriptor = passed_through JStr (getFileName callSite) /\
        member "lineno" descriptor = passed_through JNum (getLineNumber callSite) /\
        member "colno" descriptor = passed_through JNum (getColumnNumber callSite).
Proof.
  intros Hissued.
  apply captureException_issued in Hissued as (frames & Hmap & ->).
  destruct (event_document (name (errors w error)) (message (errors w error))
              frames (default no_options options)) as (members & Hdoc & Hvalues).
  cbn [body]. rewrite Hdoc.
  exists (JObj members), (SerializeJSONArray frames).
  split; [reflexivity|].
  split; [eapply stacktrace_frames_of_values, Hvalues|].
  split.
  - rewrite length_SerializeJSONArray. eapply Array_map_length, Hmap.
  - intros i callSite Hi.
    destruct (Array_map_lookup _ _ _ _ _ Hmap Hi) as (v & Hframe & Hv).
    destruct (frame_serialised _ _ Hframe)
      as (receiver & ms & _ & Hser & Hfunction & Hfilename & Hlineno & Hcolno
          & Hin_app & _).
    exists (JObj ms). split; [eapply lookup_SerializeJSONArray; eassumption|].
    cbn [member]. repeat split; assumption.
Qed.

Lemma frame_descriptor_fields_witness :
  issued Example.fromEval
    (fst (captureException Example.hostHook Example.formatStackTrace
            Example.sentry 0 None Example.fromEval)) = [Example.fromEvalRequest] /\
  exists doc descriptors,
    body Example.fromEvalRequest = Some doc /\
    stacktrace_frames doc = Some (JArr descriptors) /\
    length descriptors = length (callStack Example.fromEval) /\
    forall (i : nat) (callSite : CallSite),
      callStack Example.fromEval !! i = Some callSite ->
      exists descriptor,
        descriptors !! i = Some descriptor /\
        member "in_app" descriptor = Some (JBool (negb (isNative callSite))) /\
        member "function" descriptor = passed_through JStr (getFunctionName callSite) /\
        member "filename" descriptor = passed_through JStr (getFileName callSite) /\
        member "lineno" descriptor = passed_through JNum (getLineNumber callSite) /\
        member "colno" descriptor = passed_through JNum (getColumnNumber callSite).
Proof.
  split; [reflexivity|].
  apply (frame_descriptor_fields Example.hostHook Example.formatStackTrace
           Example.sentry 0 None Example.fromEval Example.fromEvalRequest).
  reflexivity.
Defined.

(** The three kinds of accessor result, in the document of [fromEval]: a
    value, [null], and a key that is not there. *)
Example fromEval_descriptors :
  exists doc first second third,
    body Example.fromEvalRequest = Some doc /\
    stacktrace_frames doc = Some (JArr [first; second; third]) /\
    member "filename" first = Some (JStr "/worker-sentry/src/index.ts") /\
    member "filename" second = None /\
    member "filename" third = Some JNull.
Proof. eexists _, _, _, _. repeat split. Qed.

Lemma event_omits_unset (name message : string) (frames : list JSValue)
    (o : CaptureExceptionOptions) (r : Request) :
  body r = SerializeJSONProperty (event name message frames o) ->
  unset_fields_omitted o r.
Proof.
  intros Hbody.
  exists (SerializeJSONObject (event_properties name message frames o)),
    (SerializeJSONObject (user_properties o)),
    (SerializeJSONObject (request_properties o)).
  split; [exact Hbody|].
  split; [rewrite assoc_SerializeJSONObject; reflexivity|].
  split; [rewrite assoc_SerializeJSONObject; reflexivity|].
  split; [intros H; unfold user_properties; rewrite H; reflexivity|].
  split; [intros H; unfold request_properties; rewrite H; reflexivity|].
  split; [|split].
  - unfold event_properties.
    repeat split; intros H; rewrite assoc_SerializeJSONObject;
      try rewrite H; reflexivity.
  - unfold user_properties.
    repeat split; intros H; rewrite assoc_SerializeJSONObject;
      rewrite H; reflexivity.
  - unfold request_properties.
    repeat split; intros H; rewrite assoc_SerializeJSONObject;
      rewrite H; reflexivity.
Qed.

(** Every option field the literal reads is sent under its key, with its
    value. *)
Lemma provided_fields_sent (name message : string) (frames : list JSValue)
    (o : CaptureExceptionOptions) :
  let top := SerializeJSONObject (event_properties name message frames o) in
  (forall v, level o = Some v -> assoc "level" top = Some (JStr (SentryLevel.to_string v))) /\
  (forall v, extra o = Some v -> assoc "extra" top = SerializeJSONProperty (VObj v)) /\
  (forall v, fingerprint o = Some v -> assoc "fingerprint" top = Some (JArr (map JStr v))) /\
  (forall v, tags o = Some v -> assoc "tags" top = SerializeJSONProperty (of_record v)) /\
  (forall v, serverName o = Some v -> assoc "server_name" top = Some (JStr v)) /\
  (forall v, transaction o = Some v -> assoc "transaction" top = Some (JStr v)) /\
  (forall v, release o = Some v -> assoc "release" top = Some (JStr v)) /\
  (forall v, dist o = Some v -> assoc "dist" top = Some (JStr v)) /\
  (forall v, environment o = Some v -> assoc "environment" top = Some (JStr v)).
Proof.
  cbv zeta. unfold event_properties.
  repeat split; intros v H; rewrite assoc_SerializeJSONObject; rewrite H;
    try reflexivity.
  cbn. do 2 f_equal. clear H.
  induction v as [|x v IH]; cbn; [reflexivity | f_equal; exact IH].
Qed.

(** C8. For every options object, the document of every request handed to
    the transport omits the key of each unset optional field (the key is
    absent, not [null]); the keys [user] and [request] are always present
    and hold objects, which are empty when the option is not supplied. *)
Theorem unset_fields_are_omitted
    (hostHook : nat -> ErrorObj -> list CallSite -> Outcome JSValue)
    (formatStackTrace : ErrorObj -> string)
    (this : Sentry) (error : nat) (options : option CaptureExceptionOptions)
    (w : World) (r : Request) :
  issued w (fst (captureException hostHook formatStackTrace this error options w)) = [r] ->
  unset_fields_omitted (default no_options options) r.
Proof.
  intros Hissued.
  apply captureException_issued in Hissued as (frames & _ & ->).
  eapply event_omits_unset. reflexivity.
Qed.

Lemma unset_fields_are_omitted_witness :
  issued Example.world
    (fst (captureException Example.hostHook Example.formatStackTrace
            Example.sentry 0 None Example.world)) = [Example.request] /\
  unset_fields_omitted (default no_options None) Example.request.
Proof.
  split; [reflexivity|].
  apply (unset_fields_are_omitted Example.hostHook Example.formatStackTrace
           Example.sentry 0 None Example.world Example.request).
  reflexivity.
Defined.

(** The fields [breadcrumbs] and [modules] are never read: two options
    objects that differ only there give the same event. *)
Lemma event_ignores_breadcrumbs_and_modules (name message : string)
    (frames : list JSValue) (o : CaptureExceptionOptions)
    (modules' : option (list (string * string)))
    (breadcrumbs' : option (list Breadcrumb.t)) :
  event name message frames
    {| level := level o; extra := extra o; tags := tags o; release := release o;
       dist := dist o; environment := environment o; serverName := serverName o;
       transaction := transaction o; modules := modules'; user := user o;
       fingerprint := fingerprint o; request := request o;
       breadcrumbs := breadcrumbs' |}
  = event name message frames o.
Proof. reflexivity. Qed.

(** C2 at the options of the test "should send all properties": the
    options carry [breadcrumbs], the test expects the key [breadcrumbs]
    between [request] and [server_name], and the document handed to the
    transport has no such key. *)
Theorem allProperties_without_breadcrumbs :
  exists r doc,
    issued Example.world
      (fst (captureException Example.hostHook Example.formatStackTrace
              Example.sentry 0 (Some Example.allProperties) Example.world)) = [r] /\
    is_Some (breadcrumbs Example.allProperties) /\
    body r = Some doc /\
    keys doc =
      ["logger"; "platform"; "level"; "extra"; "fingerprint"; "exception";
       "tags"; "user"; "request"; "server_name"; "transaction"; "release";
       "dist"; "environment"] /\
    member "breadcrumbs" doc = None.
Proof.
  eexists _, _. split; [reflexivity|].
  split; [eexists; reflexivity|].
  split; [reflexivity|].
  split; reflexivity.
Qed.

(** ** The hook across a call *)

Section Hook.

Variable hostHook : nat -> ErrorObj -> list CallSite -> Outcome JSValue.
Variable formatStackTrace : ErrorObj -> string.

(** On return, [Error.prepareStackTrace] is what it was before the call,
    and the result is the call stack of the capture. *)
Lemma getErrorStack_return_restores (error : nat) (w w' : World)
    (trace : option (list CallSite)) :
  getErrorStack hostHook formatStackTrace error w = (w', Val trace) ->
  prepareStackTrace w' = prepareStackTrace w /\
  trace = Some (callStack w) /\
  requests w' = requests w.
Proof.
  intros H.
  destruct (getErrorStack_cases hostHook formatStackTrace error w)
    as [(w1 & x & H1 & _)|(w1 & v & H1 & Hhook & _ & _ & Hreq & _)];
    rewrite H in H1; [discriminate|].
  injection H1 as -> ->. repeat split; assumption.
Qed.

(** With no hook installed the arrow function returns [undefined], and
    that is what [error.stack] holds from then on. *)
Lemma getErrorStack_without_hook (error : nat) (w : World) :
  prepareStackTrace w = None ->
  exists w',
    getErrorStack hostHook formatStackTrace error w = (w', Val (Some (callStack w))) /\
    stack (errors w' error) = Some VUndefined.
Proof.
  intros Hnone.
  unfold getErrorStack, bind, gets, modify, declare_trace,
    Error_captureStackTrace, get_stack, read_trace.
  rewrite Hnone. cbn. rewrite Nat.eqb_refl. unfold gets. cbn.
  rewrite list_lookup_insert_eq by (rewrite length_app; cbn; lia).
  eexists. split; [reflexivity|].
  cbn. rewrite Nat.eqb_refl. reflexivity.
Qed.

(** On an exception, [Error.prepareStackTrace] is left holding the arrow
    function of this call, which is not the hook found at entry. *)
Lemma getErrorStack_throw_leaves_arrow (error : nat) (w w' : World) (x : JSValue) :
  getErrorStack hostHook formatStackTrace error w = (w', Throw x) ->
  prepareStackTrace w' =
    Some (TraceHook (length (variables w)) (prepareStackTrace w)) /\
  prepareStackTrace w' <> prepareStackTrace w.
Proof.
  intros H.
  destruct (getErrorStack_cases hostHook formatStackTrace error w)
    as [(w1 & x1 & H1 & Hhook & _)|(w1 & v & H1 & _)];
    rewrite H in H1; [|discriminate].
  injection H1 as -> ->. split; [exact Hhook|].
  rewrite Hhook. apply TraceHook_not_restored.
Qed.

Lemma getErrorStack_throw_requests (error : nat) (w w' : World) (x : JSValue) :
  getErrorStack hostHook formatStackTrace error w = (w', Throw x) ->
  requests w' = requests w.
Proof.
  intros H.
  destruct (getErrorStack_cases hostHook formatStackTrace error w)
    as [(w1 & x1 & H1 & _ & _ & _ & Hreq & _)|(w1 & v & H1 & _)];
    rewrite H in H1; [|discriminate].
  injection H1 as -> ->. exact Hreq.
Qed.

End Hook.

(** C3 at a failing input: the host has installed a hook that throws.
    [getErrorStack] ends with that exception, and [Error.prepareStackTrace],
    which held the host's hook before the call, holds the arrow function
    of the call afterwards. *)
Theorem getErrorStack_leaves_hook_replaced :
  prepareStackTrace Example.hooked = Some (HostHook 0) /\
  snd (getErrorStack Example.hostHook Example.formatStackTrace 0 Example.hooked)
    = Throw (VStr "prepareStackTrace failed") /\
  prepareStackTrace
    (fst (getErrorStack Example.hostHook Example.formatStackTrace 0 Example.hooked))
    = Some (TraceHook 0 (Some (HostHook 0))) /\
  prepareStackTrace
    (fst (getErrorStack Example.hostHook Example.formatStackTrace 0 Example.hooked))
    <> prepareStackTrace Example.hooked.
Proof.
  split; [reflexivity|]. split; [reflexivity|]. split; [reflexivity|].
  cbn. discriminate.
Qed.

(** Each further failing call wraps the hook once more. *)
Example hook_chain_grows :
  let once := fst (getErrorStack Example.hostHook Example.formatStackTrace 0 Example.hooked) in
  prepareStackTrace
    (fst (getErrorStack Example.hostHook Example.formatStackTrace 0 once))
  = Some (TraceHook 1 (Some (TraceHook 0 (Some (HostHook 0))))).
Proof. reflexivity. Qed.

(** C4. If stack extraction raises during [captureException], the call
    ends with that exception and nothing is handed to the transport. *)
Theorem extraction_fault_issues_no_request
    (hostHook : nat -> ErrorObj -> list CallSite -> Outcome JSValue)
    (formatStackTrace : ErrorObj -> string)
    (this : Sentry) (error : nat) (options : option CaptureExceptionOptions)
    (w w' : World) (x : JSValue) :
  getErrorStack hostHook formatStackTrace error w = (w', Throw x) ->
  captureException hostHook formatStackTrace this error options w = (w', Throw x) /\
  issued w w' = [].
Proof.
  intros H. split.
  - apply captureException_throws, new_Request_extraction_throws, H.
  - apply issued_nil. eapply getErrorStack_throw_requests, H.
Qed.

Lemma extraction_fault_issues_no_request_witness :
  let w' := fst (getErrorStack Example.hostHook Example.formatStackTrace 0 Example.hooked) in
  let x := VStr "prepareStackTrace failed" in
  getErrorStack Example.hostHook Example.formatStackTrace 0 Example.hooked = (w', Throw x) /\
  captureException Example.hostHook Example.formatStackTrace Example.sentry 0 None
    Example.hooked = (w', Throw x) /\
  issued Example.hooked w' = [].
Proof.
  cbv zeta. split; [reflexivity|].
  apply (extraction_fault_issues_no_request Example.hostHook Example.formatStackTrace
           Example.sentry 0 None Example.hooked).
  reflexivity.
Defined.

(** ** The transport *)


(** The same happens when [JSON.stringify] refuses the payload: the call
    ends with its [TypeError], no request is made, and the hook is as
    before. *)
Example unserialisable_extra_fault :
  snd (captureException Example.hostHook Example.formatStackTrace
         Example.sentry 0 (Some Example.withBigInt) Example.world)
    = Throw (TypeError "Do not know how to serialize a BigInt") /\
  issued Example.world
    (fst (captureException Example.hostHook Example.formatStackTrace
            Example.sentry 0 (Some Example.withBigInt) Example.world)) = [] /\
  prepareStackTrace
    (fst (captureException Example.hostHook Example.formatStackTrace
            Example.sentry 0 (Some Example.withBigInt) Example.world)) = None.
Proof. repeat split. Qed.


(** A rejection reaches the caller as the transport gave it. *)
Example rejection_is_returned (reason : JSValue) :
  snd (captureException Example.hostHook Example.formatStackTrace
         {| sentryUrl := Example.dsn_url; fetch := Example.failing reason |}
         0 None Example.world)
  = Val (Rejected reason).
Proof. reflexivity. Qed.

Example resolution_is_returned :
  snd (captureException Example.hostHook Example.formatStackTrace
         Example.sentry 0 None Example.world)
  = Val (Fulfilled {| status := 200 |}).
Proof. reflexivity. Qed.

(** ** The error argument *)

Section ErrorArgument.

Variable hostHook : nat -> ErrorObj -> list CallSite -> Outcome JSValue.
Variable formatStackTrace : ErrorObj -> string.

(** The error object after a call is the one [getErrorStack] left. *)
Lemma captureException_errors (this : Sentry) (error : nat)
    (options : option CaptureExceptionOptions) (w : World) :
  errors (fst (captureException hostHook formatStackTrace this error options w))
  = errors (fst (getErrorStack hostHook formatStackTrace error w)).
Proof.
  unfold captureException, new_Request, bind, gets, call, lift, ret, throw.
  destruct (getErrorStack hostHook formatStackTrace error w) as [w' [[callSites|]|x]];
    cbn; try reflexivity.
  destruct (Array_map frame callSites); cbn; try reflexivity.
  destruct (JSON_stringify _); reflexivity.
Qed.

Lemma getErrorStack_structuredTrace (error : nat) (w : World) :
  structuredTrace (errors (fst (getErrorStack hostHook formatStackTrace error w)) error)
  = callStack w.
Proof.
  destruct (getErrorStack_cases hostHook formatStackTrace error w)
    as [(w' & x & H & _ & _ & Htrace & _)|(w' & v & H & _ & _ & Htrace & _)];
    rewrite H; exact Htrace.
Qed.

End ErrorArgument.

(** C10. Every call of [captureException] replaces the trace attached to
    its error argument by the call stack at the point of the call; when no
    hook is installed the error's [stack] property is left [undefined];
    and the frames of a document handed to the transport are the
    descriptors of that call stack, whatever trace the error carried
    before. *)
Theorem captureException_recaptures_stack
    (hostHook : nat -> ErrorObj -> list CallSite -> Outcome JSValue)
    (formatStackTrace : ErrorObj -> string)
    (this : Sentry) (error : nat) (options : option CaptureExceptionOptions)
    (w : World) :
  let w' := fst (captureException hostHook formatStackTrace this error options w) in
  structuredTrace (errors w' error) = callStack w /\
  (prepareStackTrace w = None -> stack (errors w' error) = Some VUndefined) /\
  (forall r, issued w w' = [r] ->
     exists doc frames,
       body r = Some doc /\
       Array_map frame (callStack w) = Val frames /\
       stacktrace_frames doc = Some (JArr (SerializeJSONArray frames))).
Proof.
  cbv zeta. rewrite captureException_errors. split; [|split].
  - apply getErrorStack_structuredTrace.
  - intros Hnone.
    destruct (getErrorStack_without_hook hostHook formatStackTrace error w Hnone)
      as (w' & H & Hstack).
    rewrite H. exact Hstack.
  - intros r Hissued.
    apply captureException_issued in Hissued as (frames & Hmap & ->).
    destruct (event_document (name (errors w error)) (message (errors w error))
                frames (default no_options options)) as (members & Hdoc & Hvalues).
    cbn [body]. rewrite Hdoc.
    exists (JObj members), frames.
    split; [reflexivity|]. split; [exact Hmap|].
    eapply stacktrace_frames_of_values, Hvalues.
Qed.

Lemma captureException_recaptures_stack_witness :
  let w' := fst (captureException Example.hostHook Example.formatStackTrace
                   Example.sentry 0 None Example.world) in
  structuredTrace (errors Example.world 0) = [Example.thrown] /\
  stack (errors Example.world 0) = Some (VStr "Error: Boom!") /\
  prepareStackTrace Example.world = None /\
  issued Example.world w' = [Example.request] /\
  structuredTrace (errors w' 0) = callStack Example.world /\
  stack (errors w' 0) = Some VUndefined /\
  exists doc frames,
    body Example.request = Some doc /\
    Array_map frame (callStack Example.world) = Val frames /\
    stacktrace_frames doc = Some (JArr (SerializeJSONArray frames)).
Proof.
  cbv zeta.
  destruct (captureException_recaptures_stack Example.hostHook
              Example.formatStackTrace Example.sentry 0 None Example.world)
    as (Htrace & Hstack & Hframes).
  split; [reflexivity|]. split; [reflexivity|]. split; [reflexivity|].
  split; [reflexivity|]. split; [exact Htrace|].
  split; [apply Hstack; reflexivity|].
  apply Hframes. reflexivity.
Defined.

(** ** Runs of the extractor and of the dispatcher *)

Section Runs.

Variable hostHook : nat -> ErrorObj -> list CallSite -> Outcome JSValue.
Variable formatStackTrace : ErrorObj -> string.

(** What a hook chain returns depends on the error object and the call
    sites only. *)
Lemma callHook_result (h : Hook) (error : nat) (t : list CallSite) (w : World) :
  snd (callHook hostHook h error t w) = hookResult hostHook h (errors w error) t.
Proof.
  revert w. induction h as [id | trace | trace previous IH] using Hook_chain_ind;
    intros w; cbn; try reflexivity.
  rewrite IH. reflexivity.
Qed.

(** A full account of one call of [getErrorStack]: the saved hook decides
    whether it returns, and what [error.stack] becomes. *)
Lemma getErrorStack_run (error : nat) (w : World) :
  let e := recaptured (errors w error) (callStack w) in
  let w' := fst (getErrorStack hostHook formatStackTrace error w) in
  requests w' = requests w /\
  callStack w' = callStack w /\
  (forall r, r <> error -> errors w' r = errors w r) /\
  match savedHookResult hostHook (prepareStackTrace w) e (callStack w) with
  | Val v =>
      snd (getErrorStack hostHook formatStackTrace error w) = Val (Some (callStack w)) /\
      prepareStackTrace w' = prepareStackTrace w /\
      errors w' error = formatted (errors w error) (callStack w) v
  | Throw x =>
      snd (getErrorStack hostHook formatStackTrace error w) = Throw x /\
      prepareStackTrace w' =
        Some (TraceHook (length (variables w)) (prepareStackTrace w)) /\
      errors w' error = e
  end.
Proof.
  cbv zeta.
  unfold getErrorStack, bind, gets, modify, declare_trace,
    Error_captureStackTrace, get_stack, read_trace.
  cbn -[callHook]. rewrite Nat.eqb_refl. cbn -[callHook].
  match goal with
  | |- context [callHook _ ?h ?e ?t ?w1] =>
      pose proof (callHook_frame hostHook h e t w1) as Hframe;
      pose proof (callHook_result h e t w1) as Hres;
      pose proof (callHook_assigns hostHook (length (variables w))
                    (prepareStackTrace w) e t w1) as Hassign;
      destruct (callHook hostHook h e t w1) as [w2 [v|x]] eqn:Hcall
  end;
    cbn in Hframe, Hres, Hassign; rewrite Nat.eqb_refl in Hres;
    destruct Hframe as (H1 & H2 & H3 & H4 & H5).
  - change (Val v = savedHookResult hostHook (prepareStackTrace w)
                      (recaptured (errors w error) (callStack w)) (callStack w)) in Hres.
    rewrite <- Hres. unfold gets. cbn.
    rewrite Hassign by (rewrite length_app; cbn; lia).
    rewrite Nat.eqb_refl. rewrite H2.
    repeat split; try assumption.
    intros r Hr. apply Nat.eqb_neq in Hr. rewrite Hr. reflexivity.
  - change (Throw x = savedHookResult hostHook (prepareStackTrace w)
                        (recaptured (errors w error) (callStack w)) (callStack w)) in Hres.
    rewrite <- Hres. cbn. rewrite H2. rewrite Nat.eqb_refl.
    repeat split; try assumption.
    intros r Hr. apply Nat.eqb_neq in Hr. rewrite Hr. reflexivity.
Qed.

(** One call of [captureException], in terms of the call of
    [getErrorStack] inside it. *)
Lemma captureException_run (this : Sentry) (error : nat)
    (options : option CaptureExceptionOptions) (w : World) :
  let g := getErrorStack hostHook formatStackTrace error w in
  captureException hostHook formatStackTrace this error options w =
    match snd g with
    | Throw x => (fst g, Throw x)
    | Val None =>
        (fst g, Throw (TypeError "Cannot read properties of undefined (reading 'map')"))
    | Val (Some callSites) =>
        match Array_map frame callSites with
        | Throw x => (fst g, Throw x)
        | Val frames =>
            match JSON_stringify
                    (event (name (errors w error)) (message (errors w error))
                       frames (default no_options options)) with
            | Throw x => (fst g, Throw x)
            | Val body =>
                let r := {| url := "https://sentry.io/api" +:+ pathname (sentryUrl this)
                                     +:+ "/store/";
                            method := "POST";
                            headers := request_headers this;
                            body := body |} in
                (add_request r (fst g), fetch this r)
            end
        end
    end.
Proof.
  cbv zeta.
  unfold captureException, new_Request, bind, gets, call, lift, ret, throw.
  destruct (getErrorStack hostHook formatStackTrace error w) as [w' [[callSites|]|x]];
    cbn; try reflexivity.
  destruct (Array_map frame callSites); cbn; try reflexivity.
  destruct (JSON_stringify _); reflexivity.
Qed.

End Runs.

(** ** Further properties of [getErrorStack] *)

(** X1. Whenever [getErrorStack] returns, [Error.prepareStackTrace] holds
    again the value it had when the function was entered. *)
Theorem getErrorStack_return_puts_hook_back
    (hostHook : nat -> ErrorObj -> list CallSite -> Outcome JSValue)
    (formatStackTrace : ErrorObj -> string)
    (error : nat) (w w' : World) (trace : option (list CallSite)) :
  getErrorStack hostHook formatStackTrace error w = (w', Val trace) ->
  prepareStackTrace w' = prepareStackTrace w.
Proof.
  intros H.
  pose proof (getErrorStack_run hostHook formatStackTrace error w) as Hrun.
  cbv zeta in Hrun. rewrite H in Hrun. cbn [fst snd] in Hrun.
  destruct Hrun as (_ & _ & _ & Hrun).
  destruct (savedHookResult hostHook (prepareStackTrace w)
              (recaptured (errors w error) (callStack w)) (callStack w));
    destruct Hrun as (Hout & Hhook & _); [exact Hhook | discriminate].
Qed.

Lemma getErrorStack_return_puts_hook_back_witness :
  getErrorStack Example.hostHook Example.formatStackTrace 0 Example.formatting
    = (fst (getErrorStack Example.hostHook Example.formatStackTrace 0 Example.formatting),
       Val (Some [Example.inModule; Example.native])) /\
  prepareStackTrace
    (fst (getErrorStack Example.hostHook Example.formatStackTrace 0 Example.formatting))
    = prepareStackTrace Example.formatting.
Proof.
  split; [reflexivity|].
  apply (getErrorStack_return_puts_hook_back Example.hostHook Example.formatStackTrace
           0 Example.formatting _ (Some [Example.inModule; Example.native])).
  reflexivity.
Defined.

(** X5. Whenever [getErrorStack] throws, [Error.prepareStackTrace] is left
    holding the arrow function of that call, wrapped around the hook found
    at entry, and so differs from the hook found at entry; the error keeps
    the freshly captured trace with [stack] unformatted. *)
Theorem getErrorStack_throw_leaves_wrapper
    (hostHook : nat -> ErrorObj -> list CallSite -> Outcome JSValue)
    (formatStackTrace : ErrorObj -> string)
    (error : nat) (w w' : World) (x : JSValue) :
  getErrorStack hostHook formatStackTrace error w = (w', Throw x) ->
  prepareStackTrace w' = Some (TraceHook (length (variables w)) (prepareStackTrace w)) /\
  prepareStackTrace w' <> prepareStackTrace w /\
  errors w' error = recaptured (errors w error) (callStack w).
Proof.
  intros H.
  pose proof (getErrorStack_run hostHook formatStackTrace error w) as Hrun.
  cbv zeta in Hrun. rewrite H in Hrun. cbn [fst snd] in Hrun.
  destruct Hrun as (_ & _ & _ & Hrun).
  destruct (savedHookResult hostHook (prepareStackTrace w)
              (recaptured (errors w error) (callStack w)) (callStack w));
    destruct Hrun as (Hout & Hhook & Herr); [discriminate|].
  split; [exact Hhook|]. split; [|exact Herr].
  rewrite Hhook. apply TraceHook_not_restored.
Qed.

Lemma getErrorStack_throw_leaves_wrapper_witness :
  let w' := fst (getErrorStack Example.hostHook Example.formatStackTrace 0 Example.hooked) in
  getErrorStack Example.hostHook Example.formatStackTrace 0 Example.hooked
    = (w', Throw (VStr "prepareStackTrace failed")) /\
  prepareStackTrace w'
    = Some (TraceHook (length (variables Example.hooked)) (prepareStackTrace Example.hooked)) /\
  prepareStackTrace w' <> prepareStackTrace Example.hooked /\
  errors w' 0 = recaptured (errors Example.hooked 0) (callStack Example.hooked).
Proof.
  cbv zeta. split; [reflexivity|].
  apply (getErrorStack_throw_leaves_wrapper Example.hostHook Example.formatStackTrace
           0 Example.hooked _ (VStr "prepareStackTrace failed")).
  reflexivity.
Defined.

(** ** Further properties of [captureException] *)

Section Calls.

Variable hostHook : nat -> ErrorObj -> list CallSite -> Outcome JSValue.
Variable formatStackTrace : ErrorObj -> string.

(** A call that handed a request to the transport got its call sites from
    an extraction that returned, and its payload was serialisable. *)
Lemma issued_after_extraction (this : Sentry) (error : nat)
    (options : option CaptureExceptionOptions) (w : World) (r : Request) :
  issued w (fst (captureException hostHook formatStackTrace this error options w)) = [r] ->
  exists frames,
    Array_map frame (callStack w) = Val frames /\
    unserialisable (event (name (errors w error)) (message (errors w error))
                      frames (default no_options options)) = None /\
    r = {| url := "https://sentry.io/api" +:+ pathname (sentryUrl this) +:+ "/store/";
           method := "POST";
           headers := request_headers this;
           body := SerializeJSONProperty
                     (event (name (errors w error)) (message (errors w error))
                        frames (default no_options options)) |} /\
    fst (captureException hostHook formatStackTrace this error options w)
      = add_request r (fst (getErrorStack hostHook formatStackTrace error w)) /\
    snd (captureException hostHook formatStackTrace this error options w) = fetch this r.
Proof.
  rewrite captureException_run. cbv zeta.
  pose proof (getErrorStack_run hostHook formatStackTrace error w) as Hrun.
  cbv zeta in Hrun. destruct Hrun as (Hreq & _ & _ & Hrun).
  destruct (savedHookResult hostHook (prepareStackTrace w)
              (recaptured (errors w error) (callStack w)) (callStack w));
    destruct Hrun as (Hout & _); rewrite Hout.
  - destruct (Array_map frame (callStack w)) as [frames|x]; cbn [fst snd].
    + unfold JSON_stringify.
      destruct (unserialisable
                  (event (name (errors w error)) (message (errors w error))
                     frames (default no_options options))) as [x|] eqn:Hser;
        cbn [fst snd].
      * rewrite (issued_nil _ _ Hreq). discriminate.
      * rewrite (issued_add_request _ _ _ Hreq). intros [= <-].
        exists frames. split; [reflexivity|]. split; [exact Hser|].
        repeat split.
    + rewrite (issued_nil _ _ Hreq). discriminate.
  - cbn [fst snd]. rewrite (issued_nil _ _ Hreq). discriminate.
Qed.

End Calls.

(** X7. A call that hands a request to the transport leaves
    [Error.prepareStackTrace] as it found it. *)
Theorem captureException_issued_restores_hook
    (hostHook : nat -> ErrorObj -> list CallSite -> Outcome JSValue)
    (formatStackTrace : ErrorObj -> string)
    (this : Sentry) (error : nat) (options : option CaptureExceptionOptions)
    (w : World) (r : Request) :
  issued w (fst (captureException hostHook formatStackTrace this error options w)) = [r] ->
  prepareStackTrace (fst (captureException hostHook formatStackTrace this error options w))
    = prepareStackTrace w.
Proof.
  intros Hissued.
  destruct (issued_after_extraction _ _ _ _ _ _ _ Hissued)
    as (frames & _ & _ & _ & Hw1 & _).
  rewrite Hw1. unfold add_request. cbn [prepareStackTrace].
  pose proof (getErrorStack_run hostHook formatStackTrace error w) as Hrun.
  cbv zeta in Hrun. destruct Hrun as (Hreq & _ & _ & Hrun).
  destruct (savedHookResult hostHook (prepareStackTrace w)
              (recaptured (errors w error) (callStack w)) (callStack w)) as [v|x];
    destruct Hrun as (Hout & Hhook & _); [exact Hhook|].
  exfalso. rewrite captureException_run in Hissued. cbv zeta in Hissued.
  rewrite Hout in Hissued. cbn [fst snd] in Hissued.
  rewrite (issued_nil _ _ Hreq) in Hissued. discriminate.
Qed.

Lemma captureException_issued_restores_hook_witness :
  issued Example.formatting
    (fst (captureException Example.hostHook Example.formatStackTrace
            Example.sentry 0 None Example.formatting)) = [Example.request] /\
  prepareStackTrace
    (fst (captureException Example.hostHook Example.formatStackTrace
            Example.sentry 0 None Example.formatting))
    = prepareStackTrace Example.formatting.
Proof.
  split; [reflexivity|].
  apply (captureException_issued_restores_hook Example.hostHook Example.formatStackTrace
           Example.sentry 0 None Example.formatting Example.request).
  reflexivity.
Defined.

(** X9. A call never removes or rewrites an earlier transport call and
    adds at most one: afterwards the list of requests is the old list, or
    the old list followed by one request. *)
Theorem captureException_adds_at_most_one_request
    (hostHook : nat -> ErrorObj -> list CallSite -> Outcome JSValue)
    (formatStackTrace : ErrorObj -> string)
    (this : Sentry) (error : nat) (options : option CaptureExceptionOptions)
    (w : World) :
  let w' := fst (captureException hostHook formatStackTrace this error options w) in
  requests w' = requests w \/ exists r, requests w' = requests w ++ [r].
Proof.
  cbv zeta. rewrite captureException_run. cbv zeta.
  pose proof (getErrorStack_run hostHook formatStackTrace error w) as Hrun.
  cbv zeta in Hrun. destruct Hrun as (Hreq & _).
  destruct (snd (getErrorStack hostHook formatStackTrace error w)) as [[callSites|]|x];
    cbn [fst]; try (left; exact Hreq).
  destruct (Array_map frame callSites) as [frames|x]; cbn [fst];
    [|left; exact Hreq].
  destruct (JSON_stringify _) as [body|x]; cbn [fst]; [|left; exact Hreq].
  right. eexists. unfold add_request. cbn [requests]. rewrite Hreq. reflexivity.
Qed.

(** X10. With no hook installed, so that no code of the host runs during
    the call, a call changes no error object but its argument, and of its
    argument it keeps [name] and [message]. *)
Theorem captureException_touches_only_its_error
    (hostHook : nat -> ErrorObj -> list CallSite -> Outcome JSValue)
    (formatStackTrace : ErrorObj -> string)
    (this : Sentry) (error : nat) (options : option CaptureExceptionOptions)
    (w : World) :
  prepareStackTrace w = None ->
  (forall other, other <> error ->
     errors (fst (captureException hostHook formatStackTrace this error options w)) other
       = errors w other) /\
  name (errors (fst (captureException hostHook formatStackTrace this error options w)) error)
    = name (errors w error) /\
  message (errors (fst (captureException hostHook formatStackTrace this error options w)) error)
    = message (errors w error).
Proof.
  intros Hnone. rewrite captureException_errors.
  pose proof (getErrorStack_run hostHook formatStackTrace error w) as Hrun.
  cbv zeta in Hrun. rewrite Hnone in Hrun. cbn [savedHookResult] in Hrun.
  destruct Hrun as (_ & _ & Hothers & _ & _ & ->).
  split; [exact Hothers|]. split; reflexivity.
Qed.

Lemma captureException_touches_only_its_error_witness :
  prepareStackTrace Example.world = None /\
  1 <> 0 /\
  errors (fst (captureException Example.hostHook Example.formatStackTrace
                 Example.sentry 0 None Example.world)) 1
    = errors Example.world 1 /\
  name (errors (fst (captureException Example.hostHook Example.formatStackTrace
                       Example.sentry 0 None Example.world)) 0)
    = name (errors Example.world 0) /\
  message (errors (fst (captureException Example.hostHook Example.formatStackTrace
                          Example.sentry 0 None Example.world)) 0)
    = message (errors Example.world 0).
Proof.
  destruct (captureException_touches_only_its_error Example.hostHook
              Example.formatStackTrace Example.sentry 0 None Example.world eq_refl)
    as (Hothers & Hname & Hmessage).
  split; [reflexivity|]. split; [discriminate|].
  split; [apply Hothers; discriminate|].
  split; assumption.
Defined.

(** X11. The transport that is called is the one given to the constructor,
    and the ambient [fetch] when none was given: for a client built by the
    constructor, the result of a call that issued request [r] is the
    result of that function on [r]. *)
Theorem constructed_client_calls_configured_fetch
    (new_URL : string -> Outcome URL) (globalFetch : Fetch)
    (hostHook : nat -> ErrorObj -> list CallSite -> Outcome JSValue)
    (formatStackTrace : ErrorObj -> string)
    (sentryOptions : SentryOptions.t) (this : Sentry)
    (error : nat) (options : option CaptureExceptionOptions)
    (w : World) (r : Request) :
  new_Sentry new_URL globalFetch sentryOptions = Val this ->
  issued w (fst (captureException hostHook formatStackTrace this error options w)) = [r] ->
  snd (captureException hostHook formatStackTrace this error options w)
    = match SentryOptions.fetch sentryOptions with
      | Some f => f r
      | None => globalFetch r
      end.
Proof.
  unfold new_Sentry. intros Hnew Hissued.
  destruct (new_URL (SentryOptions.dsn sentryOptions)) as [u|x]; [|discriminate].
  injection Hnew as <-.
  destruct (issued_after_extraction _ _ _ _ _ _ _ Hissued) as (frames & _ & _ & _ & _ & ->).
  cbn. destruct (SentryOptions.fetch sentryOptions); reflexivity.
Qed.

Lemma constructed_client_calls_configured_fetch_witness :
  let this := {| sentryUrl := Example.dsn_url; fetch := Example.failing VNull |} in
  let sentryOptions := {| SentryOptions.dsn := Example.dsn; SentryOptions.fetch := None |} in
  new_Sentry Example.new_URL (Example.failing VNull) sentryOptions = Val this /\
  issued Example.world
    (fst (captureException Example.hostHook Example.formatStackTrace this 0 None
            Example.world)) = [Example.request] /\
  snd (captureException Example.hostHook Example.formatStackTrace this 0 None Example.world)
    = Example.failing VNull Example.request.
Proof.
  cbv zeta. split; [reflexivity|]. split; [reflexivity|].
  apply (constructed_client_calls_configured_fetch Example.new_URL (Example.failing VNull)
           Example.hostHook Example.formatStackTrace
           {| SentryOptions.dsn := Example.dsn; SentryOptions.fetch := None |}
           _ 0 None Example.world Example.request); reflexivity.
Defined.

(** X12. Nothing is remembered between calls: with no hook installed,
    when a call has issued a request, the same call made again (same
    client, error and options, from the same call stack) issues an equal
    request again. *)
Theorem repeated_call_sends_again
    (hostHook : nat -> ErrorObj -> list CallSite -> Outcome JSValue)
    (formatStackTrace : ErrorObj -> string)
    (this : Sentry) (error : nat) (options : option CaptureExceptionOptions)
    (w : World) (r : Request) :
  let w1 := fst (captureException hostHook formatStackTrace this error options w) in
  prepareStackTrace w = None ->
  issued w w1 = [r] ->
  issued w1 (fst (captureException hostHook formatStackTrace this error options w1)) = [r] /\
  requests (fst (captureException hostHook formatStackTrace this error options w1))
    = requests w ++ [r; r].
Proof.
  cbv zeta. intros Hnone Hissued.
  destruct (issued_after_extraction _ _ _ _ _ _ _ Hissued)
    as (frames & Hmap & Hser & Hr & Hw1 & _).
  pose proof (getErrorStack_run hostHook formatStackTrace error w) as Hrun.
  cbv zeta in Hrun. rewrite Hnone in Hrun. cbn [savedHookResult] in Hrun.
  destruct Hrun as (Hreq & Hstack & _ & _ & Hhook & Herr).
  set (w1 := fst (captureException hostHook formatStackTrace this error options w)) in *.
  assert (Hhook1 : prepareStackTrace w1 = None)
    by (rewrite Hw1; exact Hhook).
  assert (Hstack1 : callStack w1 = callStack w)
    by (rewrite Hw1; exact Hstack).
  assert (Herr1 : errors w1 error = formatted (errors w error) (callStack w) VUndefined)
    by (rewrite Hw1; exact Herr).
  assert (Hreq1 : requests w1 = requests w ++ [r])
    by (rewrite Hw1; unfold add_request; cbn [requests]; rewrite Hreq; reflexivity).
  pose proof (getErrorStack_run hostHook formatStackTrace error w1) as Hrun1.
  cbv zeta in Hrun1. rewrite Hhook1 in Hrun1. cbn [savedHookResult] in Hrun1.
  destruct Hrun1 as (Hreq2 & _ & _ & Hout1 & _ & _).
  rewrite Hstack1 in Hout1.
  rewrite (captureException_run hostHook formatStackTrace this error options w1).
  cbv zeta. rewrite Hout1, Hmap, Herr1. cbn [name message formatted].
  unfold JSON_stringify. rewrite Hser. cbn [fst snd]. rewrite <- Hr. split.
  - apply issued_add_request, Hreq2.
  - unfold add_request at 1. cbn [requests]. rewrite Hreq2, Hreq1, <- app_assoc. reflexivity.
Qed.

Lemma repeated_call_sends_again_witness :
  let w1 := fst (captureException Example.hostHook Example.formatStackTrace
                   Example.sentry 0 None Example.world) in
  prepareStackTrace Example.world = None /\
  issued Example.world w1 = [Example.request] /\
  issued w1 (fst (captureException Example.hostHook Example.formatStackTrace
                    Example.sentry 0 None w1)) = [Example.request] /\
  requests (fst (captureException Example.hostHook Example.formatStackTrace
                   Example.sentry 0 None w1))
    = requests Example.world ++ [Example.request; Example.request].
Proof.
  cbv zeta. split; [reflexivity|]. split; [reflexivity|].
  apply (repeated_call_sends_again Example.hostHook Example.formatStackTrace
           Example.sentry 0 None Example.world Example.request); reflexivity.
Defined.

(** ** Further properties of the event document *)

Lemma SerializeJSONProperty_of_record (r : list (string * string)) :
  SerializeJSONProperty (of_record r) = Some (JSON_record r).
Proof.
  unfold of_record, JSON_record. rewrite SerializeJSONProperty_VObj. do 2 f_equal.
  induction r as [|[k v] r IH]; cbn; [reflexivity | f_equal; exact IH].
Qed.

Lemma SerializeJSONProperty_of_cookies (c : Cookies) :
  SerializeJSONProperty (of_cookies c) = Some (JSON_cookies c).
Proof.
  destruct c as [s|r|l]; cbn [of_cookies JSON_cookies].
  - reflexivity.
  - apply SerializeJSONProperty_of_record.
  - rewrite SerializeJSONProperty_VArr. do 2 f_equal.
    induction l as [|[k v] l IH]; cbn; [reflexivity | f_equal; exact IH].
Qed.

(** X14. Every option field the payload reads is sent when it is set:
    [level], [extra], [fingerprint], [tags], [release], [dist] and
    [environment] under their own names, [serverName] as [server_name],
    each with the value given (inside [extra], properties whose value is
    [undefined] are left out). *)
Theorem set_fields_are_sent
    (hostHook : nat -> ErrorObj -> list CallSite -> Outcome JSValue)
    (formatStackTrace : ErrorObj -> string)
    (this : Sentry) (error : nat) (options : option CaptureExceptionOptions)
    (w : World) (r : Request) :
  issued w (fst (captureException hostHook formatStackTrace this error options w)) = [r] ->
  let o := default no_options options in
  exists top,
    body r = Some (JObj top) /\
    (forall v, level o = Some v ->
       assoc "level" top = Some (JStr (SentryLevel.to_string v))) /\
    (forall v, extra o = Some v ->
       assoc "extra" top = Some (JObj (SerializeJSONObject v))) /\
    (forall v, fingerprint o = Some v ->
       assoc "fingerprint" top = Some (JArr (map JStr v))) /\
    (forall v, tags o = Some v -> assoc "tags" top = Some (JSON_record v)) /\
    (forall v, serverName o = Some v -> assoc "server_name" top = Some (JStr v)) /\
    (forall v, transaction o = Some v -> assoc "transaction" top = Some (JStr v)) /\
    (forall v, release o = Some v -> assoc "release" top = Some (JStr v)) /\
    (forall v, dist o = Some v -> assoc "dist" top = Some (JStr v)) /\
    (forall v, environment o = Some v -> assoc "environment" top = Some (JStr v)).
Proof.
  intros Hissued. cbv zeta.
  apply captureException_issued in Hissued as (frames & _ & ->).
  pose proof (provided_fields_sent (name (errors w error)) (message (errors w error))
                frames (default no_options options)) as Hsent.
  cbv zeta in Hsent.
  destruct Hsent as (H1 & H2 & H3 & H4 & H5 & H6 & H7 & H8 & H9).
  exists (SerializeJSONObject
            (event_properties (name (errors w error)) (message (errors w error))
               frames (default no_options options))).
  split; [reflexivity|].
  split; [exact H1|]. split.
  { intros v Hv. rewrite (H2 v Hv). apply SerializeJSONProperty_VObj. }
  split; [exact H3|]. split.
  { intros v Hv. rewrite (H4 v Hv). apply SerializeJSONProperty_of_record. }
  repeat split; assumption.
Qed.

Lemma set_fields_are_sent_witness :
  issued Example.world
    (fst (captureException Example.hostHook Example.formatStackTrace
            Example.sentry 0 (Some Example.detailed) Example.world))
    = [Example.detailedRequest] /\
  exists top,
    body Example.detailedRequest = Some (JObj top) /\
    assoc "level" top = Some (JStr "warning") /\
    assoc "fingerprint" top = Some (JArr [JStr "boom"]) /\
    assoc "tags" top = Some (JObj [("region", JStr "eu")]) /\
    assoc "server_name" top = Some (JStr "edge-1") /\
    assoc "environment" top = Some (JStr "staging").
Proof.
  split; [reflexivity|].
  destruct (set_fields_are_sent Example.hostHook Example.formatStackTrace
              Example.sentry 0 (Some Example.detailed) Example.world
              Example.detailedRequest eq_refl)
    as (top & Hbody & Hlevel & _ & Hfingerprint & Htags & Hserver & _ & _ & _ & Henv).
  exists top. split; [exact Hbody|].
  split; [apply (Hlevel SentryLevel.warning); reflexivity|].
  split; [apply (Hfingerprint ["boom"]); reflexivity|].
  split; [apply (Htags [("region", "eu")]); reflexivity|].
  split; [apply (Hserver "edge-1"); reflexivity|].
  apply (Henv "staging"); reflexivity.
Defined.

(** X15. The fields of a supplied [user] and [request] are sent inside the
    [user] and [request] objects: [id], [email], [username], [url],
    [method], [headers], [cookies] and [env] under their own names,
    [user.ip] as [ip_address] and [request.query] as [query_string]. *)
Theorem user_and_request_fields_are_sent
    (hostHook : nat -> ErrorObj -> list CallSite -> Outcome JSValue)
    (formatStackTrace : ErrorObj -> string)
    (this : Sentry) (error : nat) (options : option CaptureExceptionOptions)
    (w : World) (r : Request) :
  issued w (fst (captureException hostHook formatStackTrace this error options w)) = [r] ->
  let o := default no_options options in
  exists top userDoc requestDoc,
    body r = Some (JObj top) /\
    assoc "user" top = Some (JObj userDoc) /\
    assoc "request" top = Some (JObj requestDoc) /\
    (forall u, user o = Some u ->
       (forall v, UserOptions.id u = Some v -> assoc "id" userDoc = Some (JStr v)) /\
       (forall v, UserOptions.email u = Some v -> assoc "email" userDoc = Some (JStr v)) /\
       (forall v, UserOptions.username u = Some v ->
          assoc "username" userDoc = Some (JStr v)) /\
       (forall v, UserOptions.ip u = Some v ->
          assoc "ip_address" userDoc = Some (JStr v))) /\
    (forall q, request o = Some q ->
       (forall v, RequestOptions.url q = Some v -> assoc "url" requestDoc = Some (JStr v)) /\
       (forall v, RequestOptions.method q = Some v ->
          assoc "method" requestDoc = Some (JStr v)) /\
       (forall v, RequestOptions.headers q = Some v ->
          assoc "headers" requestDoc = Some (JSON_record v)) /\
       (forall v, RequestOptions.query q = Some v ->
          assoc "query_string" requestDoc = Some (JStr v)) /\
       (forall v, RequestOptions.cookies q = Some v ->
          assoc "cookies" requestDoc = Some (JSON_cookies v)) /\
       (forall v, RequestOptions.env q = Some v ->
          assoc "env" requestDoc = Some (JSON_record v))).
Proof.
  intros Hissued. cbv zeta.
  apply captureException_issued in Hissued as (frames & _ & ->).
  set (o := default no_options options).
  exists (SerializeJSONObject (event_properties (name (errors w error))
                                 (message (errors w error)) frames o)),
    (SerializeJSONObject (user_properties o)),
    (SerializeJSONObject (request_properties o)).
  split; [reflexivity|].
  split; [rewrite assoc_SerializeJSONObject; reflexivity|].
  split; [rewrite assoc_SerializeJSONObject; reflexivity|].
  split.
  - intros u Hu. unfold user_properties. rewrite Hu. cbn [chain].
    repeat split; intros v Hv; rewrite assoc_SerializeJSONObject; rewrite Hv;
      reflexivity.
  - intros q Hq. unfold request_properties. rewrite Hq. cbn [chain].
    repeat split; intros v Hv; rewrite assoc_SerializeJSONObject; rewrite Hv;
      cbn [literal_member String.eqb Ascii.eqb Bool.eqb optional];
      try reflexivity.
    + rewrite SerializeJSONProperty_of_record. reflexivity.
    + rewrite SerializeJSONProperty_of_cookies. reflexivity.
    + rewrite SerializeJSONProperty_of_record. reflexivity.
Qed.

Lemma user_and_request_fields_are_sent_witness :
  issued Example.world
    (fst (captureException Example.hostHook Example.formatStackTrace
            Example.sentry 0 (Some Example.detailed) Example.world))
    = [Example.detailedRequest] /\
  exists top userDoc requestDoc,
    body Example.detailedRequest = Some (JObj top) /\
    assoc "user" top = Some (JObj userDoc) /\
    assoc "request" top = Some (JObj requestDoc) /\
    assoc "id" userDoc = Some (JStr "42") /\
    assoc "ip_address" userDoc = Some (JStr "203.0.113.7") /\
    assoc "query_string" requestDoc = Some (JStr "a=1") /\
    assoc "headers" requestDoc = Some (JObj [("accept", JStr "*/*")]) /\
    assoc "cookies" requestDoc = Some (JArr [JArr [JStr "sid"; JStr "1"]]).
Proof.
  split; [reflexivity|].
  destruct (user_and_request_fields_are_sent Example.hostHook Example.formatStackTrace
              Example.sentry 0 (Some Example.detailed) Example.world
              Example.detailedRequest eq_refl)
    as (top & userDoc & requestDoc & Hbody & Huser & Hrequest & Hu & Hq).
  destruct (Hu _ eq_refl) as (Hid & _ & _ & Hip).
  destruct (Hq _ eq_refl) as (_ & _ & Hheaders & Hquery & Hcookies & _).
  exists top, userDoc, requestDoc.
  split; [exact Hbody|]. split; [exact Huser|]. split; [exact Hrequest|].
  split; [apply Hid; reflexivity|].
  split; [apply Hip; reflexivity|].
  split; [apply Hquery; reflexivity|].
  split; [apply (Hheaders [("accept", "*/*")]); reflexivity|].
  apply (Hcookies (CookiePairs [("sid", "1")])); reflexivity.
Defined.

Lemma keys_event_document (name message : string) (frames : list JSValue)
    (o : CaptureExceptionOptions) :
  map fst (SerializeJSONObject (event_properties name message frames o)) = event_keys o.
Proof.
  unfold event_properties, event_keys.
  destruct (level o), (extra o), (fingerprint o), (tags o), (serverName o),
    (transaction o), (release o), (dist o), (environment o); reflexivity.
Qed.

(** X16. The keys of the document come in one fixed order: [logger],
    [platform], [level], [extra], [fingerprint], [exception], [tags],
    [user], [request], [server_name], [transaction], [release], [dist],
    [environment]; the keys [logger], [platform], [exception], [user] and
    [request] are always there, each other key exactly when its option is
    set, and no other key ever appears. *)
Theorem document_keys_in_order
    (hostHook : nat -> ErrorObj -> list CallSite -> Outcome JSValue)
    (formatStackTrace : ErrorObj -> string)
    (this : Sentry) (error : nat) (options : option CaptureExceptionOptions)
    (w : World) (r : Request) :
  issued w (fst (captureException hostHook formatStackTrace this error options w)) = [r] ->
  exists doc,
    body r = Some doc /\
    keys doc = event_keys (default no_options options).
Proof.
  intros Hissued.
  apply captureException_issued in Hissued as (frames & _ & ->).
  eexists. split; [reflexivity|].
  apply keys_event_document.
Qed.

Lemma document_keys_in_order_witness :
  issued Example.world
    (fst (captureException Example.hostHook Example.formatStackTrace
            Example.sentry 0 (Some Example.detailed) Example.world))
    = [Example.detailedRequest] /\
  exists doc,
    body Example.detailedRequest = Some doc /\
    keys doc = ["logger"; "platform"; "level"; "fingerprint"; "exception"; "tags";
                "user"; "request"; "server_name"; "environment"].
Proof.
  split; [reflexivity|].
  apply (document_keys_in_order Example.hostHook Example.formatStackTrace
           Example.sentry 0 (Some Example.detailed) Example.world
           Example.detailedRequest).
  reflexivity.
Defined.

(** X17. Every request handed to the transport is a [POST] whose body is a
    document with [logger] equal to ["worker"] and [platform] equal to
    ["javascript"]. *)
Theorem request_is_post_with_constants
    (hostHook : nat -> ErrorObj -> list CallSite -> Outcome JSValue)
    (formatStackTrace : ErrorObj -> string)
    (this : Sentry) (error : nat) (options : option CaptureExceptionOptions)
    (w : World) (r : Request) :
  issued w (fst (captureException hostHook formatStackTrace this error options w)) = [r] ->
  method r = "POST" /\
  exists doc,
    body r = Some doc /\
    member "logger" doc = Some (JStr "worker") /\
    member "platform" doc = Some (JStr "javascript").
Proof.
  intros Hissued.
  apply captureException_issued in Hissued as (frames & _ & ->).
  split; [reflexivity|].
  eexists. split; [reflexivity|].
  split; reflexivity.
Qed.

Lemma request_is_post_with_constants_witness :
  issued Example.world
    (fst (captureException Example.hostHook Example.formatStackTrace
            Example.sentry 0 None Example.world)) = [Example.request] /\
  method Example.request = "POST" /\
  exists doc,
    body Example.request = Some doc /\
    member "logger" doc = Some (JStr "worker") /\
    member "platform" doc = Some (JStr "javascript").
Proof.
  split; [reflexivity|].
  apply (request_is_post_with_constants Example.hostHook Example.formatStackTrace
           Example.sentry 0 None Example.world Example.request).
  reflexivity.
Defined.

(** X18. The keys of each frame descriptor come in the fixed order
    [function], [filename], [lineno], [colno], [in_app], [vars]; [in_app]
    and [vars] are always there, each of the other four unless its accessor
    returned [undefined], and no other key appears.  [vars] is an object
    with the single key [this], holding the string [String(...)] gives for
    the call site's receiver. *)
Theorem frame_descriptor_shape
    (hostHook : nat -> ErrorObj -> list CallSite -> Outcome JSValue)
    (formatStackTrace : ErrorObj -> string)
    (this : Sentry) (error : nat) (options : option CaptureExceptionOptions)
    (w : World) (r : Request) :
  issued w (fst (captureException hostHook formatStackTrace this error options w)) = [r] ->
  exists doc descriptors,
    body r = Some doc /\
    stacktrace_frames doc = Some (JArr descriptors) /\
    forall (i : nat) (callSite : CallSite),
      callStack w !! i = Some callSite ->
      exists descriptor receiver,
        descriptors !! i = Some descriptor /\
        String_ (getThis callSite) = Val receiver /\
        member "vars" descriptor = Some (JObj [("this", JStr receiver)]) /\
        keys descriptor =
          key_unless_undefined "function" (getFunctionName callSite)
            ++ key_unless_undefined "filename" (getFileName callSite)
            ++ key_unless_undefined "lineno" (getLineNumber callSite)
            ++ key_unless_undefined "colno" (getColumnNumber callSite)
            ++ ["in_app"; "vars"].
Proof.
  intros Hissued.
  apply captureException_issued in Hissued as (frames & Hmap & ->).
  destruct (event_document (name (errors w error)) (message (errors w error))
              frames (default no_options options)) as (members & Hdoc & Hvalues).
  cbn [body]. rewrite Hdoc.
  exists (JObj members), (SerializeJSONArray frames).
  split; [reflexivity|].
  split; [eapply stacktrace_frames_of_values, Hvalues|].
  intros i callSite Hi.
  destruct (Array_map_lookup _ _ _ _ _ Hmap Hi) as (v & Hframe & Hv).
  destruct (frame_serialised _ _ Hframe)
    as (receiver & ms & Hreceiver & Hser & _ & _ & _ & _ & _ & Hvars & Hkeys).
  exists (JObj ms), receiver.
  split; [eapply lookup_SerializeJSONArray; eassumption|].
  split; [exact Hreceiver|]. split; [exact Hvars | exact Hkeys].
Qed.

Lemma frame_descriptor_shape_witness :
  issued Example.fromEval
    (fst (captureException Example.hostHook Example.formatStackTrace
            Example.sentry 0 None Example.fromEval)) = [Example.fromEvalRequest] /\
  exists doc descriptors,
    body Example.fromEvalRequest = Some doc /\
    stacktrace_frames doc = Some (JArr descriptors) /\
    forall (i : nat) (callSite : CallSite),
      callStack Example.fromEval !! i = Some callSite ->
      exists descriptor receiver,
        descriptors !! i = Some descriptor /\
        String_ (getThis callSite) = Val receiver /\
        member "vars" descriptor = Some (JObj [("this", JStr receiver)]) /\
        keys descriptor =
          key_unless_undefined "function" (getFunctionName callSite)
            ++ key_unless_undefined "filename" (getFileName callSite)
            ++ key_unless_undefined "lineno" (getLineNumber callSite)
            ++ key_unless_undefined "colno" (getColumnNumber callSite)
            ++ ["in_app"; "vars"].
Proof.
  split; [reflexivity|].
  apply (frame_descriptor_shape Example.hostHook Example.formatStackTrace
           Example.sentry 0 None Example.fromEval Example.fromEvalRequest).
  reflexivity.
Defined.
